(** * alternatives: the Ansible module managing update-alternatives links

    A shallow embedding of [lib/ansible/modules/system/alternatives.py]
    ([get_current], [set_alternative], [remove_alternative], [main]) and the
    properties of its reconciliation logic.

    Conventions of the embedding.
    - Text is a byte string ([string], one [ascii] per byte), the [str] of
      the Python 2 interpreter the module targets: [\s] is the class
      [ \t\n\r\x0b\x0c], [splitlines] breaks at [\n], [\r] and [\r\n].
    - [module.run_command] talks to the external tool.  The tool is a
      transition function on an abstract world; every argv handed to
      [run_command] is appended to a log, so that "which commands were
      issued, and in which order" is a statement about the log.
    - [module.exit_json] and [module.fail_json] end the process (they raise
      [SystemExit]); an uncaught Python exception ends it as well.  Both are
      the left summand of the result of a computation. *)

From Stdlib Require Import String Ascii List ZArith Bool Lia.
From Stdlib Require Import DecimalString.
Import ListNotations.
Local Open Scope string_scope.
Local Open Scope Z_scope.

(** ** Python string primitives *)

Module Py.

(** ASCII whitespace: the bytes for which [str.isspace] holds and that the
    regular-expression class [\s] matches on byte strings. *)
Definition isspace (c : ascii) : bool :=
  match nat_of_ascii c with
  | 9%nat | 10%nat | 11%nat | 12%nat | 13%nat | 32%nat => true
  | _ => false
  end.

Definition LF : ascii := ascii_of_nat 10.
Definition CR : ascii := ascii_of_nat 13.

Definition nl : string := String LF "".

Definition is_lf (c : ascii) : bool := Ascii.eqb c LF.
Definition is_cr (c : ascii) : bool := Ascii.eqb c CR.

(** [s.startswith(p)] *)
Fixpoint startswith (p s : string) : bool :=
  match p with
  | EmptyString => true
  | String a p' =>
      match s with
      | EmptyString => false
      | String b s' => Ascii.eqb a b && startswith p' s'
      end
  end.

(** The text that follows the literal [p] at the head of [s], if [s] starts
    with [p]. *)
Fixpoint strip_prefix (p s : string) : option string :=
  match p with
  | EmptyString => Some s
  | String a p' =>
      match s with
      | EmptyString => None
      | String b s' => if Ascii.eqb a b then strip_prefix p' s' else None
      end
  end.

(** [s.splitlines()] on a byte string: a line ends at [\n], at [\r] or at
    the pair [\r\n]; the breaks are dropped and a final break opens no last
    empty line.  [after_cr] tells that the byte just read was a [\r], whose
    line is closed already: a [\n] that follows belongs to the same break. *)
Fixpoint splitlines_aux (after_cr : bool) (s : string) : list string :=
  match s with
  | EmptyString => []
  | String c s' =>
      if is_lf c then
        if after_cr then splitlines_aux false s'
        else "" :: splitlines_aux false s'
      else if is_cr c then "" :: splitlines_aux true s'
      else
        match splitlines_aux false s' with
        | [] => [String c ""]
        | l :: ls => String c l :: ls
        end
  end.

Definition splitlines (s : string) : list string := splitlines_aux false s.

(** [s.split()]: the maximal runs of bytes that are not whitespace. *)
Fixpoint split (s : string) : list string :=
  match s with
  | EmptyString => []
  | String c s' =>
      if isspace c then split s'
      else
        match s' with
        | EmptyString => [String c ""]
        | String d _ =>
            if isspace d then String c "" :: split s'
            else
              match split s' with
              | [] => [String c ""]
              | w :: ws => String c w :: ws
              end
        end
  end.

(** [str(n)] for an integer. *)
Definition str (n : Z) : string := NilZero.string_of_int (Z.to_int n).

(** [not x] for a value that is [None] or a string. *)
Definition not_ (x : option string) : bool :=
  match x with
  | None => true
  | Some EmptyString => true
  | Some (String _ _) => false
  end.

(** [x in xs] for a list of strings. *)
Definition in_ (x : string) (xs : list string) : bool :=
  existsb (String.eqb x) xs.

End Py.

(** ** The two regular expressions of [get_current]

    Each is modelled by a matcher for that one pattern, with the flags the
    source compiles it with ([re.MULTILINE]: [^] matches at the start of the
    text and after every [\n], [$] at the end of the text and before every
    [\n]; [.] matches every byte but [\n]). *)

Module Re.

(** [\s*] is greedy and what follows it starts with a letter, so it takes
    the whole run of whitespace. *)
Fixpoint skip_spaces (s : string) : string :=
  match s with
  | EmptyString => EmptyString
  | String c s' => if Py.isspace c then skip_spaces s' else s
  end.

(** The group [.*] and the [$] after it: [.*] is greedy and stops at the
    first [\n] or at the end of the text, where [$] holds. *)
Fixpoint dot_star (s : string) : string :=
  match s with
  | EmptyString => EmptyString
  | String c s' => if Py.is_lf c then EmptyString else String c (dot_star s')
  end.

Definition current_path_literal : string := "link currently points to ".

(** The pattern [\s*link currently points to ], its group [.*] and [$],
    matched at the head of [s]; the result is group 1. *)
Definition current_path_match_at (s : string) : option string :=
  match Py.strip_prefix current_path_literal (skip_spaces s) with
  | Some r => Some (dot_star r)
  | None => None
  end.

(** [current_path_regex.search(s)]: the leftmost position where the pattern
    matches; [bol] tells whether the head of [s] is the start of a line.
    [None] is Python's [None] (no match). *)
Fixpoint current_path_search_from (bol : bool) (s : string) : option string :=
  match (if bol then current_path_match_at s else None) with
  | Some g => Some g
  | None =>
      match s with
      | EmptyString => None
      | String c s' => current_path_search_from (Py.is_lf c) s'
      end
  end.

Definition current_path_regex_search (s : string) : option string :=
  current_path_search_from true s.

(** [\s-\spriority] at the head of [s]. *)
Definition priority_tail (s : string) : bool :=
  match s with
  | String a (String b (String c r)) =>
      Py.isspace a && Ascii.eqb b "-"%char && Py.isspace c
      && Py.startswith "priority" r
  | _ => false
  end.

(** [.*\s-\spriority] at the head of [s]: the text taken by [.*].  It is
    greedy: it first tries to take one more byte, and gives bytes back until
    the tail matches. *)
Fixpoint alternative_dot_star (s : string) : option string :=
  match s with
  | EmptyString => None
  | String c s' =>
      if Py.is_lf c then (if priority_tail s then Some "" else None)
      else
        match alternative_dot_star s' with
        | Some g => Some (String c g)
        | None => if priority_tail s then Some "" else None
        end
  end.

(** The group [\/.*] followed by [\s-\spriority], at the head of [s]:
    group 1. *)
Definition alternative_match_at (s : string) : option string :=
  match s with
  | String c s' =>
      if Ascii.eqb c "/"%char
      then option_map (String "/"%char) (alternative_dot_star s')
      else None
  | EmptyString => None
  end.

(** [alternative_regex.findall(s)]: the matches from left to right, the
    search resuming where the previous match ended.  A match with group [g]
    spans [length g + 11] bytes; [skip] counts the bytes of the previous
    match still to pass. *)
Fixpoint alternative_findall_from (skip : nat) (bol : bool) (s : string)
  : list string :=
  match s with
  | EmptyString => []
  | String c s' =>
      match skip with
      | S k => alternative_findall_from k (Py.is_lf c) s'
      | O =>
          match (if bol then alternative_match_at s else None) with
          | Some g =>
              g :: alternative_findall_from (String.length g + 10)
                     (Py.is_lf c) s'
          | None => alternative_findall_from 0 (Py.is_lf c) s'
          end
      end
  end.

Definition alternative_regex_findall (s : string) : list string :=
  alternative_findall_from 0 true s.

End Re.

(** ** The interface of [AnsibleModule] the module uses *)

(** [state = dict(choices=['present', 'absent'], default='present')] *)
Inductive state_choice : Type := present | absent.

(** [module.params], after the argument spec has been applied: [name] and
    [path] are required, [link] may be missing ([None]), [priority] is an
    integer. *)
Record Params : Type := {
  name : string;
  path : string;
  link : option string;
  priority : Z;
  state : state_choice
}.

(** The [msg] of a [fail_json]. *)
Inductive message : Type :=
| Msg (text : string)
    (** a literal message of this file *)
| StrDir
    (** [str(dir(cpe))], the attribute names of the caught exception *)
| CommandFailed (args : list string) (rc : Z) (stdout stderr : string)
    (** the report of [run_command] about a command that had to succeed *)
| BinNotFound (bin : string)
    (** the report of [get_bin_path] about a required program *).

(** What the process hands back: the keyword arguments of [exit_json], or
    the message of [fail_json]. *)
Inductive json_result : Type :=
| ExitJson (changed : bool) (kwargs : list (string * option string))
| FailJson (msg : message).

(** What ends a computation early.  [SystemExit] is what [exit_json] and
    [fail_json] raise; the other three are exceptions nothing else than a
    matching [except] clause stops. *)
Inductive exn : Type :=
| SystemExit (r : json_result)
| CalledProcessError
| AttributeError
| IndexError.

(** Modelled from the spec: what [AnsibleModule.run_command] does with
    [check_rc=True] when the command exits non-zero (module_utils/basic.py
    is not part of this file).  The spec: "non-zero exit is a fatal
    condition for that invocation -- immediately abort remaining steps and
    surface failure".  The caller's [except subprocess.CalledProcessError]
    expects an exception; the helper may as well report through
    [fail_json] itself.  Both are covered. *)
Inductive rc_policy : Type :=
| RaisesCalledProcessError
| CallsFailJson.

(** The [module] object: the parameters, [module.check_mode], the answer of
    the search [get_bin_path] makes on the PATH, and the policy above. *)
Record AnsibleModule : Type := {
  params : Params;
  check_mode : bool;
  which : string -> option string;
  on_nonzero_rc : rc_policy
}.

Section Module_.

(** The external tool: a command line, run in a world, gives an exit
    status, the two output streams, and the world afterwards. *)
Variable W : Type.
Variable exec : W -> list string -> (Z * string * string) * W.

(** The host the module runs on: the tool's world, and the commands issued
    so far, oldest first. *)
Record Host : Type := { world : W; log : list (list string) }.

Definition M (A : Type) : Type := Host -> (exn + A) * Host.

Definition ret {A} (a : A) : M A := fun h => (inr a, h).

Definition raise {A} (e : exn) : M A := fun h => (inl e, h).

Definition bind {A B} (c : M A) (k : A -> M B) : M B :=
  fun h =>
    match c h with
    | (inl e, h') => (inl e, h')
    | (inr a, h') => k a h'
    end.

Notation "x <- c1 ;; c2" := (bind c1 (fun x => c2))
  (at level 61, c1 at next level, right associativity).
Notation "' pat <- c1 ;; c2" := (bind c1 (fun x => match x with pat => c2 end))
  (at level 61, pat pattern, c1 at next level, right associativity).
Notation "c1 ;; c2" := (bind c1 (fun _ => c2))
  (at level 61, right associativity).

(** [try: body / except subprocess.CalledProcessError: handler] *)
Definition try_except {A} (body handler : M A) : M A :=
  fun h =>
    match body h with
    | (inl CalledProcessError, h') => handler h'
    | r => r
    end.

(** Modelled from the spec: [AnsibleModule.exit_json] and
    [AnsibleModule.fail_json] (module_utils/basic.py is not part of this
    file).  The spec speaks of the source's "process-exit-based control flow
    (fail/exit calls anywhere in the logic)": a call reports its keyword
    arguments and ends the process, so nothing after it runs, and no
    [except] clause for another exception stops it. *)
Definition exit_json {A} (changed : bool) (kwargs : list (string * option string))
  : M A := raise (SystemExit (ExitJson changed kwargs)).

Definition fail_json {A} (msg : message) : M A :=
  raise (SystemExit (FailJson msg)).

(** How a command that had to succeed and did not ends the computation. *)
Definition command_failure (module : AnsibleModule) (args : list string)
    (rc : Z) (out err : string) : exn :=
  match on_nonzero_rc module with
  | RaisesCalledProcessError => CalledProcessError
  | CallsFailJson => SystemExit (FailJson (CommandFailed args rc out err))
  end.

(** Modelled from the spec: [AnsibleModule.run_command] (module_utils/basic.py
    is not part of this file).  It runs the command line and returns the
    exit status and the two output streams; the command is issued (and
    logged) in every case; with [check_rc=True] a non-zero status ends the
    computation as the policy of the module says. *)
Definition run_command (module : AnsibleModule) (args : list string)
    (check_rc : bool) : M (Z * string * string) :=
  fun h =>
    let '(rc, out, err, w') := exec (world h) args in
    let h' := {| world := w'; log := log h ++ [args] |} in
    if check_rc && negb (rc =? 0)
    then (inl (command_failure module args rc out err), h')
    else (inr (rc, out, err), h').

(** Modelled from the spec: [AnsibleModule.get_bin_path(bin, True)]
    (module_utils/basic.py is not part of this file): the path of a required
    program, or a [fail_json] when it is not installed. *)
Definition get_bin_path (module : AnsibleModule) (bin : string) : M string :=
  match which module bin with
  | Some p => ret p
  | None => fail_json (BinNotFound bin)
  end.

(** ** [get_current] *)

(** The loop over [query_output.splitlines()]: the first line that starts
    with [Link:] decides; [line.split()[1]] raises [IndexError] when the
    line has one word only. *)
Fixpoint get_current_link (lines : list string) (link : option string)
  : M (option string) :=
  match lines with
  | [] => ret link
  | line :: rest =>
      if Py.startswith "Link:" line then
        match Py.split line with
        | _ :: word :: _ => ret (Some word)
        | _ => raise IndexError
        end
      else get_current_link rest link
  end.

Definition display_args (cmd name : string) : list string :=
  ["env"; "LC_ALL=C"; cmd; "--display"; name].

Definition query_args (cmd name : string) : list string :=
  ["env"; "LC_ALL=C"; cmd; "--query"; name].

Definition get_current (module : AnsibleModule) (cmd name : string)
    (link : option string)
  : M (option string * list string * option string) :=
  let current_path : option string := None in
  let all_alternatives : list string := [] in
  '(rc, display_output, _) <- run_command module (display_args cmd name) false ;;
  if rc =? 0 then
    match Re.current_path_regex_search display_output with
    | None => raise AttributeError
    | Some group1 =>
        let current_path := Some group1 in
        let all_alternatives := Re.alternative_regex_findall display_output in
        if Py.not_ link then
          '(rc, query_output, _) <- run_command module (query_args cmd name) false ;;
          if rc =? 0 then
            link <- get_current_link (Py.splitlines query_output) link ;;
            ret (current_path, all_alternatives, link)
          else ret (current_path, all_alternatives, link)
        else ret (current_path, all_alternatives, link)
    end
  else ret (current_path, all_alternatives, link).

(** ** [set_alternative] *)

Definition missing_link : message :=
  Msg "Needed to install the alternative, but unable to do so as we are missing the link".

Definition install_args (cmd link name path : string) (priority : Z)
  : list string :=
  [cmd; "--install"; link; name; path; Py.str priority].

Definition set_args (cmd name path : string) : list string :=
  [cmd; "--set"; name; path].

Definition remove_args (cmd name path : string) : list string :=
  [cmd; "--remove"; name; path].

(** [current_path != path], for [current_path] a string or [None] *)
Definition differs (current_path : option string) (path : string) : bool :=
  match current_path with
  | Some p => negb (String.eqb p path)
  | None => true
  end.

Definition set_alternative (module : AnsibleModule)
    (cmd name path : string) (link : option string) (priority : Z)
    (current_path : option string) (all_alternatives : list string)
  : M unit :=
  if differs current_path path then
    (if check_mode module
     then exit_json true [("current_path", current_path)]
     else ret tt) ;;
    try_except
      ((if negb (Py.in_ path all_alternatives) then
          (* [if not link: fail_json(...)], then the install with [link] *)
          match link with
          | Some (String _ _ as link) =>
              run_command module (install_args cmd link name path priority)
                true ;;
              ret tt
          | _ => fail_json missing_link
          end
        else ret tt) ;;
       run_command module (set_args cmd name path) true ;;
       exit_json true [])
      (fail_json StrDir)
  else exit_json false [].

(** ** [remove_alternative] *)

Definition remove_alternative (module : AnsibleModule)
    (cmd name path : string) (all_alternatives : list string) : M unit :=
  if Py.in_ path all_alternatives then
    try_except
      (run_command module (remove_args cmd name path) true ;;
       exit_json true [])
      (fail_json StrDir)
  else exit_json false [].

(** ** [main] *)

Definition main (module : AnsibleModule) : M unit :=
  let params := params module in
  let name := name params in
  let path := path params in
  let link := link params in
  let priority := priority params in
  let state := state params in
  UPDATE_ALTERNATIVES <- get_bin_path module "update-alternatives" ;;
  '(current_path, all_alternatives, link) <-
     get_current module UPDATE_ALTERNATIVES name link ;;
  match state with
  | present =>
      set_alternative module UPDATE_ALTERNATIVES name path link priority
        current_path all_alternatives
  | absent =>
      remove_alternative module UPDATE_ALTERNATIVES name path all_alternatives
  end.

End Module_.

Arguments world {W} h.
Arguments log {W} h.
Arguments Build_Host {W} world log.
Arguments ret {W A} a h.
Arguments raise {W A} e h.
Arguments bind {W A B} c k h.
Arguments try_except {W A} body handler h.
Arguments exit_json {W A} changed kwargs h.
Arguments fail_json {W A} msg h.
Arguments run_command {W} exec module args check_rc h.
Arguments get_bin_path {W} module bin h.
Arguments get_current_link {W} lines link h.
Arguments get_current {W} exec module cmd name link h.
Arguments set_alternative {W} exec module cmd name path link priority
  current_path all_alternatives h.
Arguments remove_alternative {W} exec module cmd name path all_alternatives h.
Arguments main {W} exec module h.

(** ** What the properties speak about *)

(** The lines of a text in the sense of [re.MULTILINE]: the pieces between
    the [\n] bytes. *)
Fixpoint lines_of (s : string) : list string :=
  match s with
  | EmptyString => [EmptyString]
  | String c s' =>
      if Py.is_lf c then EmptyString :: lines_of s'
      else
        match lines_of s' with
        | [] => [String c ""]
        | l :: ls => String c l :: ls
        end
  end.

(** A line of the shape "link currently points to X", possibly indented. *)
Definition current_path_line (l : string) : bool :=
  match Py.strip_prefix Re.current_path_literal (Re.skip_spaces l) with
  | Some _ => true
  | None => false
  end.

(** The host after some more commands, which left the tool in [w]. *)
Definition after {W} (h : Host W) (w : W) (cmds : list (list string))
  : Host W :=
  {| world := w; log := log h ++ cmds |}.

(** The commands a computation issued: what it appended to the log. *)
Definition issued {W} (before after : Host W) (cmds : list (list string))
  : Prop :=
  log after = (log before ++ cmds)%list.

(** A sequence of commands the tool runs with success, one after the other:
    the world it ends in. *)
Fixpoint all_succeed {W} (exec : W -> list string -> (Z * string * string) * W)
    (w : W) (cmds : list (list string)) : option W :=
  match cmds with
  | [] => Some w
  | c :: cs =>
      let '(rc, _, _, w') := exec w c in
      if rc =? 0 then all_succeed exec w' cs else None
  end.

(** What the caller of a command that had to succeed sees when it did not:
    the clause [except subprocess.CalledProcessError] turns the exception
    into a [fail_json]; a [fail_json] of the helper passes through. *)
Definition reported (module : AnsibleModule) (args : list string)
    (rc : Z) (out err : string) : exn :=
  match command_failure module args rc out err with
  | CalledProcessError => SystemExit (FailJson StrDir)
  | e => e
  end.

(** The commands the present branch has to issue in a real run to select a
    path that is not the current one: the install when the path is no
    candidate yet, then the set. *)
Definition present_commands (cmd name path : string) (link : option string)
    (priority : Z) (all_alternatives : list string) : list (list string) :=
  if Py.in_ path all_alternatives then [set_args cmd name path]
  else
    match link with
    | Some l => [install_args cmd l name path priority; set_args cmd name path]
    | None => [set_args cmd name path]
    end.

(** The report of the parse-fidelity property. *)
Definition vim_report : string :=
  "link currently points to /usr/bin/vim.basic" ++ Py.nl
  ++ "/usr/bin/vim.basic - priority 30" ++ Py.nl
  ++ "/usr/bin/vim.tiny - priority 10" ++ Py.nl.

(** ** A tool to run the module against

    A small stand-in for [update-alternatives], used to evaluate the module
    on concrete hosts.  A group has a link, a selected path and its
    candidates with their priorities; [has_query] tells the Debian flavour,
    which knows [--query], from the other one. *)

Module Tool.

Definition nl : string := Py.nl.

Record Group : Type := {
  g_link : string;
  g_current : string;
  g_candidates : list (string * string)
}.

Record World : Type := {
  has_query : bool;
  groups : list (string * Group)
}.

Fixpoint lookup (n : string) (gs : list (string * Group)) : option Group :=
  match gs with
  | [] => None
  | (k, g) :: gs' => if String.eqb k n then Some g else lookup n gs'
  end.

Fixpoint store (n : string) (g : option Group) (gs : list (string * Group))
  : list (string * Group) :=
  match gs with
  | [] => match g with Some g => [(n, g)] | None => [] end
  | (k, g0) :: gs' =>
      if String.eqb k n
      then match g with Some g => (k, g) :: gs' | None => gs' end
      else (k, g0) :: store n g gs'
  end.

Definition candidate_line (c : string * string) : string :=
  fst c ++ " - priority " ++ snd c ++ nl.

Definition display_text (n : string) (g : Group) : string :=
  n ++ " - auto mode" ++ nl
  ++ "  link currently points to " ++ g_current g ++ nl
  ++ "  link " ++ n ++ " is " ++ g_link g ++ nl
  ++ String.concat "" (map candidate_line (g_candidates g)).

Definition query_text (n : string) (g : Group) : string :=
  "Name: " ++ n ++ nl
  ++ "Link: " ++ g_link g ++ nl
  ++ "Status: auto" ++ nl
  ++ "Value: " ++ g_current g ++ nl.

Definition is_candidate (p : string) (g : Group) : bool :=
  existsb (fun c => String.eqb (fst c) p) (g_candidates g).

Definition with_groups (w : World) (gs : list (string * Group)) : World :=
  {| has_query := has_query w; groups := gs |}.

Definition install (w : World) (l n p prio : string) : World :=
  match lookup n (groups w) with
  | None =>
      with_groups w
        (store n (Some {| g_link := l; g_current := p;
                          g_candidates := [(p, prio)] |}) (groups w))
  | Some g =>
      if is_candidate p g then w
      else
        with_groups w
          (store n (Some {| g_link := g_link g; g_current := g_current g;
                            g_candidates := g_candidates g ++ [(p, prio)] |})
             (groups w))
  end.

Definition remove (w : World) (n p : string) (g : Group) : World :=
  let rest :=
    filter (fun c => negb (String.eqb (fst c) p)) (g_candidates g) in
  match rest with
  | [] => with_groups w (store n None (groups w))
  | c :: _ =>
      with_groups w
        (store n (Some {| g_link := g_link g;
                          g_current := if String.eqb (g_current g) p
                                       then fst c else g_current g;
                          g_candidates := rest |}) (groups w))
  end.

Definition exec (w : World) (args : list string)
  : (Z * string * string) * World :=
  match args with
  | [_; _; _; "--display"; n] =>
      match lookup n (groups w) with
      | Some g => (0, display_text n g, "", w)
      | None => (2, "", "no alternatives for " ++ n, w)
      end
  | [_; _; _; "--query"; n] =>
      match has_query w, lookup n (groups w) with
      | true, Some g => (0, query_text n g, "", w)
      | _, _ => (2, "", "", w)
      end
  | [_; "--install"; l; n; p; prio] => (0, "", "", install w l n p prio)
  | [_; "--set"; n; p] =>
      match lookup n (groups w) with
      | Some g =>
          if is_candidate p g
          then (0, "", "",
                with_groups w
                  (store n (Some {| g_link := g_link g; g_current := p;
                                    g_candidates := g_candidates g |})
                     (groups w)))
          else (2, "", "not registered", w)
      | None => (2, "", "no alternatives for " ++ n, w)
      end
  | [_; "--remove"; n; p] =>
      match lookup n (groups w) with
      | Some g => (0, "", "", remove w n p g)
      | None => (2, "", "no alternatives for " ++ n, w)
      end
  | _ => (2, "", "unknown command", w)
  end.

(** A tool without memory that answers each command line as [answer]
    says. *)
Definition scripted (answer : list string -> Z * string * string)
  : unit -> list string -> (Z * string * string) * unit :=
  fun w args => (answer args, w).

(** A host with the vim group of two candidates, [vim.basic] selected. *)
Definition vim_group : Group :=
  {| g_link := "/usr/bin/vim";
     g_current := "/usr/bin/vim.basic";
     g_candidates := [("/usr/bin/vim.basic", "30"); ("/usr/bin/vim.tiny", "10")] |}.

Definition vim_world : World :=
  {| has_query := true; groups := [("vim", vim_group)] |}.

Definition empty_world : World := {| has_query := true; groups := [] |}.

Definition host (w : World) : Host World := {| world := w; log := [] |}.

Definition cmd : string := "/usr/bin/update-alternatives".

Definition on_path (bin : string) : option string :=
  if String.eqb bin "update-alternatives" then Some cmd else None.

(** A tool that answers every command with success and the same text. *)
Definition always (out : string) : list string -> Z * string * string :=
  fun _ => (0, out, "").

Definition module_ (n p : string) (l : option string) (prio : Z)
    (st : state_choice) (check : bool) : AnsibleModule :=
  {| params := {| name := n; path := p; link := l; priority := prio;
                  state := st |};
     check_mode := check;
     which := on_path;
     on_nonzero_rc := CallsFailJson |}.

End Tool.

(** ** More notions the properties speak about *)

(** The path a line of the shape "link currently points to X" names. *)
Definition line_path (l : string) : option string :=
  Py.strip_prefix Re.current_path_literal (Re.skip_spaces l).

(** The path named by the first line of that shape. *)
Fixpoint first_path (ls : list string) : option string :=
  match ls with
  | [] => None
  | l :: ls' =>
      match line_path l with
      | Some x => Some x
      | None => first_path ls'
      end
  end.

(** A text without line break, and a word: not empty, no whitespace. *)
Fixpoint one_line (s : string) : bool :=
  match s with
  | EmptyString => true
  | String c s' => negb (Py.is_lf c) && one_line s'
  end.

Fixpoint no_space (s : string) : bool :=
  match s with
  | EmptyString => true
  | String c s' => negb (Py.isspace c) && no_space s'
  end.

Definition word (s : string) : bool :=
  match s with
  | EmptyString => false
  | _ => no_space s
  end.

(** The module with check mode set as said, all else equal. *)
Definition with_check_mode (b : bool) (module : AnsibleModule)
  : AnsibleModule :=
  {| params := params module;
     check_mode := b;
     which := which module;
     on_nonzero_rc := on_nonzero_rc module |}.

(** * Properties *)

(** ** The current-path pattern and the lines of the report *)

Lemma isspace_lf c : Py.is_lf c = true -> Py.isspace c = true.
Proof.
  unfold Py.is_lf. intros H. apply Ascii.eqb_eq in H. subst c. reflexivity.
Qed.

Lemma lines_of_cons s : exists l ls, lines_of s = l :: ls.
Proof.
  destruct s as [|c s]; simpl.
  - eauto.
  - destruct (Py.is_lf c); [eauto|].
    destruct (lines_of s); eauto.
Qed.

Lemma lines_of_String c s l ls :
  Py.is_lf c = false -> lines_of s = l :: ls ->
  lines_of (String c s) = String c l :: ls.
Proof. intros Hc Hs. simpl. rewrite Hc, Hs. reflexivity. Qed.

(** A literal without line break that heads a text heads its first line. *)
Lemma strip_prefix_first_line p : forall s r,
  (forall c, In c (list_ascii_of_string p) -> Py.is_lf c = false) ->
  Py.strip_prefix p s = Some r ->
  exists l ls r', lines_of s = l :: ls /\ Py.strip_prefix p l = Some r'.
Proof.
  induction p as [|a p IH]; intros s r Hp H.
  - destruct (lines_of_cons s) as (l & ls & E). exists l, ls, l. auto.
  - destruct s as [|b s]; simpl in H; [discriminate|].
    destruct (Ascii.eqb a b) eqn:Eab; [|discriminate].
    apply Ascii.eqb_eq in Eab. subst b.
    destruct (IH s r) as (l & ls & r' & E & Hl); auto.
    { intros c Hc. apply Hp. simpl. auto. }
    exists (String a l), ls, r'. split.
    + apply lines_of_String; auto. apply Hp. simpl. auto.
    + simpl. rewrite Ascii.eqb_refl. exact Hl.
Qed.

Lemma current_path_literal_one_line c :
  In c (list_ascii_of_string Re.current_path_literal) -> Py.is_lf c = false.
Proof.
  simpl. intros H.
  repeat (destruct H as [H|H]; [subst c; reflexivity|]). contradiction.
Qed.

Lemma current_path_match_at_line : forall s g,
  Re.current_path_match_at s = Some g ->
  exists l, In l (lines_of s) /\ current_path_line l = true.
Proof.
  induction s as [|c s IH]; intros g H.
  - discriminate.
  - unfold Re.current_path_match_at in H.
    change (Re.skip_spaces (String c s))
      with (if Py.isspace c then Re.skip_spaces s else String c s) in H.
    destruct (Py.isspace c) eqn:Ec.
    + destruct (IH g H) as (l & Hin & Hl).
      simpl. destruct (Py.is_lf c).
      * exists l. simpl. auto.
      * destruct (lines_of s) as [|l0 ls]; [contradiction|].
        destruct Hin as [<-|Hin].
        -- exists (String c l0). split; [left; reflexivity|].
           unfold current_path_line. simpl. rewrite Ec. exact Hl.
        -- exists l. split; [right; exact Hin|exact Hl].
    + destruct (Py.strip_prefix Re.current_path_literal (String c s)) as [r|] eqn:E;
        [|discriminate].
      destruct (strip_prefix_first_line _ _ _ current_path_literal_one_line E)
        as (l & ls & r' & El & Hl).
      exists l. rewrite El. split; [left; reflexivity|].
      unfold current_path_line.
      assert (Hc : Py.is_lf c = false).
      { destruct (Py.is_lf c) eqn:F; [|reflexivity].
        apply isspace_lf in F. congruence. }
      destruct (lines_of_cons s) as (l1 & ls1 & E1).
      rewrite (lines_of_String _ _ _ _ Hc E1) in El. inversion El; subst.
      simpl. rewrite Ec. simpl in Hl. rewrite Hl. reflexivity.
Qed.

Lemma current_path_search_line : forall s bol g,
  Re.current_path_search_from bol s = Some g ->
  exists l,
    In l (if bol then lines_of s else tl (lines_of s))
    /\ current_path_line l = true.
Proof.
  induction s as [|c s IH]; intros bol g H.
  - destruct bol; discriminate.
  - simpl in H.
    destruct (if bol then Re.current_path_match_at (String c s) else None)
      as [g'|] eqn:E.
    + destruct bol; [|discriminate].
      exact (current_path_match_at_line _ _ E).
    + destruct (IH _ _ H) as (l & Hin & Hl). exists l. split; [|exact Hl].
      assert (Ht : In l (tl (lines_of (String c s)))).
      { simpl. destruct (Py.is_lf c); simpl.
        - exact Hin.
        - destruct (lines_of s); simpl in *; [contradiction|exact Hin]. }
      destruct bol; [|exact Ht].
      destruct (lines_of (String c s)); simpl in Ht; [contradiction|].
      right. exact Ht.
Qed.

(** Without a line of that shape, the search finds nothing. *)
Lemma current_path_search_None s :
  (forall l, In l (lines_of s) -> current_path_line l = false) ->
  Re.current_path_regex_search s = None.
Proof.
  intros H. unfold Re.current_path_regex_search.
  destruct (Re.current_path_search_from true s) as [g|] eqn:E; [|reflexivity].
  destruct (current_path_search_line _ _ _ E) as (l & Hin & Hl).
  rewrite (H l Hin) in Hl. discriminate.
Qed.

(** ** The helpers of [AnsibleModule] *)

Section Properties.

Variable W : Type.
Variable exec : W -> list string -> (Z * string * string) * W.

Implicit Types (module : AnsibleModule) (h : Host W) (args : list string).

Lemma run_command_unchecked module args h rc out err w :
  exec (world h) args = (rc, out, err, w) ->
  run_command exec module args false h = (inr (rc, out, err), after h w [args]).
Proof. intros E. unfold run_command. rewrite E. reflexivity. Qed.

Lemma run_command_checked_ok module args h out err w :
  exec (world h) args = (0, out, err, w) ->
  run_command exec module args true h = (inr (0, out, err), after h w [args]).
Proof. intros E. unfold run_command. rewrite E. reflexivity. Qed.

Lemma run_command_checked_failed module args h rc out err w :
  exec (world h) args = (rc, out, err, w) -> rc <> 0 ->
  run_command exec module args true h
  = (inl (command_failure module args rc out err), after h w [args]).
Proof.
  intros E Hrc. unfold run_command. rewrite E.
  apply Z.eqb_neq in Hrc. rewrite Hrc. reflexivity.
Qed.

(** Under either policy the caller sees a [fail_json]. *)
Lemma reported_is_fail_json module args rc out err :
  exists msg, reported module args rc out err = SystemExit (FailJson msg).
Proof.
  unfold reported, command_failure.
  destruct (on_nonzero_rc module); eexists; reflexivity.
Qed.

Lemma try_except_failed module args rc out err h :
  (match command_failure module args rc out err with
   | CalledProcessError => fail_json StrDir h
   | e => (@inl exn unit e, h)
   end) = (inl (reported module args rc out err), h).
Proof.
  unfold reported, command_failure.
  destruct (on_nonzero_rc module); reflexivity.
Qed.

Lemma after_after h w cmds w' cmds' :
  after (after h w cmds) w' cmds' = after h w' (cmds ++ cmds').
Proof. unfold after. simpl. rewrite <- app_assoc. reflexivity. Qed.

Lemma in__In x xs : Py.in_ x xs = true <-> In x xs.
Proof.
  unfold Py.in_. rewrite existsb_exists. split.
  - intros (y & Hy & E). apply String.eqb_eq in E. subst y. exact Hy.
  - intros H. exists x. split; [exact H|apply String.eqb_refl].
Qed.

Lemma in__not_In x xs : Py.in_ x xs = false <-> ~ In x xs.
Proof.
  rewrite <- in__In. destruct (Py.in_ x xs); split; congruence.
Qed.

Lemma differs_false cur p : differs cur p = false <-> cur = Some p.
Proof.
  destruct cur as [q|]; simpl.
  - rewrite negb_false_iff, String.eqb_eq. split; congruence.
  - split; discriminate.
Qed.

Lemma differs_true cur p : differs cur p = true <-> cur <> Some p.
Proof.
  rewrite <- differs_false. destruct (differs cur p); split; congruence.
Qed.

(** ** [get_current] *)

(** The loop over the lines of the query report leaves the host alone. *)
Lemma get_current_link_first lines lk h :
  get_current_link lines lk h
  = (match find (Py.startswith "Link:") lines with
     | None => inr lk
     | Some line =>
         match Py.split line with
         | _ :: word :: _ => inr (Some word)
         | _ => inl IndexError
         end
     end, h).
Proof.
  induction lines as [|line rest IH]; cbn [get_current_link find].
  - reflexivity.
  - destruct (Py.startswith "Link:" line).
    + destruct (Py.split line) as [|? [|? ?]]; reflexivity.
    + exact IH.
Qed.

Lemma get_current_registered module cmd n lk h out err w g :
  exec (world h) (display_args cmd n) = (0, out, err, w) ->
  Re.current_path_regex_search out = Some g ->
  Py.not_ lk = false ->
  get_current exec module cmd n lk h
  = (inr (Some g, Re.alternative_regex_findall out, lk),
     after h w [display_args cmd n]).
Proof.
  intros E Hg Hlk. unfold get_current, bind.
  rewrite (run_command_unchecked _ _ _ _ _ _ _ E). simpl.
  rewrite Hg, Hlk. reflexivity.
Qed.

Lemma get_current_queried module cmd n lk h out err w g rc qout qerr w' :
  exec (world h) (display_args cmd n) = (0, out, err, w) ->
  Re.current_path_regex_search out = Some g ->
  Py.not_ lk = true ->
  exec w (query_args cmd n) = (rc, qout, qerr, w') ->
  get_current exec module cmd n lk h
  = ((if rc =? 0 then
        match find (Py.startswith "Link:") (Py.splitlines qout) with
        | None => inr (Some g, Re.alternative_regex_findall out, lk)
        | Some line =>
            match Py.split line with
            | _ :: word :: _ =>
                inr (Some g, Re.alternative_regex_findall out, Some word)
            | _ => inl IndexError
            end
        end
      else inr (Some g, Re.alternative_regex_findall out, lk)),
     after h w' [display_args cmd n; query_args cmd n]).
Proof.
  intros E Hg Hlk Eq. unfold get_current, bind.
  rewrite (run_command_unchecked _ _ _ _ _ _ _ E).
  change (0 =? 0) with true. cbv beta iota.
  rewrite Hg, Hlk.
  rewrite (run_command_unchecked module (query_args cmd n)
             (after h w [display_args cmd n]) rc qout qerr w' Eq).
  rewrite after_after. cbv beta iota.
  change ([display_args cmd n] ++ [query_args cmd n])%list
    with [display_args cmd n; query_args cmd n].
  destruct (rc =? 0); [|reflexivity].
  rewrite get_current_link_first.
  destruct (find (Py.startswith "Link:") (Py.splitlines qout)) as [line|];
    [|reflexivity].
  destruct (Py.split line) as [|? [|? ?]]; reflexivity.
Qed.

Lemma get_current_display_failed module cmd n lk h rc out err w :
  exec (world h) (display_args cmd n) = (rc, out, err, w) ->
  rc <> 0 ->
  get_current exec module cmd n lk h
  = (inr (None, [], lk), after h w [display_args cmd n]).
Proof.
  intros E Hrc. unfold get_current, bind.
  rewrite (run_command_unchecked _ _ _ _ _ _ _ E). cbv beta iota.
  apply Z.eqb_neq in Hrc. rewrite Hrc. reflexivity.
Qed.

(** C6. When the display operation exits with a non-zero status, the probe
    returns no current path and no candidate, with the link it was given; it
    raises nothing, and the display command is the only one it issued: the
    query operation is not invoked. *)
Theorem get_current_unregistered module cmd n lk h rc out err w :
  exec (world h) (display_args cmd n) = (rc, out, err, w) ->
  rc <> 0 ->
  get_current exec module cmd n lk h
  = (inr (None, [], lk), after h w [display_args cmd n])
  /\ issued h (snd (get_current exec module cmd n lk h))
       [display_args cmd n].
Proof.
  intros E Hrc.
  rewrite (get_current_display_failed module cmd n lk h _ _ _ _ E Hrc).
  split; reflexivity.
Qed.

Lemma get_current_unparsable module cmd n lk h out err w :
  exec (world h) (display_args cmd n) = (0, out, err, w) ->
  Re.current_path_regex_search out = None ->
  get_current exec module cmd n lk h
  = (inl AttributeError, after h w [display_args cmd n]).
Proof.
  intros E Hg. unfold get_current, bind.
  rewrite (run_command_unchecked _ _ _ _ _ _ _ E). simpl.
  rewrite Hg. reflexivity.
Qed.

(** ** [main], once the probe is done *)

Lemma main_probed module h cmd cur alts lk h' :
  which module "update-alternatives" = Some cmd ->
  get_current exec module cmd (name (params module)) (link (params module)) h
  = (inr (cur, alts, lk), h') ->
  main exec module h
  = match state (params module) with
    | present =>
        set_alternative exec module cmd (name (params module))
          (path (params module)) lk (priority (params module)) cur alts h'
    | absent =>
        remove_alternative exec module cmd (name (params module))
          (path (params module)) alts h'
    end.
Proof.
  intros Hw Hp. unfold main, bind, get_bin_path. rewrite Hw. unfold ret.
  rewrite Hp. destruct (state (params module)); reflexivity.
Qed.

Lemma main_probe_raised module h cmd e h' :
  which module "update-alternatives" = Some cmd ->
  get_current exec module cmd (name (params module)) (link (params module)) h
  = (inl e, h') ->
  main exec module h = (inl e, h').
Proof.
  intros Hw Hp. unfold main, bind, get_bin_path. rewrite Hw. unfold ret.
  rewrite Hp. reflexivity.
Qed.

(** C3. When the display operation exits with status zero and no line of
    its report has the shape "link currently points to X", the probe raises
    (the [AttributeError] of [None.group]) right after the display command,
    and [main] ends with that exception: no current path is made up and no
    result is reported. *)
Theorem unparsable_report_is_raised module cmd h out err w :
  which module "update-alternatives" = Some cmd ->
  exec (world h) (display_args cmd (name (params module))) = (0, out, err, w) ->
  (forall l, In l (lines_of out) -> current_path_line l = false) ->
  get_current exec module cmd (name (params module)) (link (params module)) h
  = (inl AttributeError, after h w [display_args cmd (name (params module))])
  /\ main exec module h
     = (inl AttributeError, after h w [display_args cmd (name (params module))]).
Proof.
  intros Hw E Hlines.
  assert (Hp := get_current_unparsable module cmd _ (link (params module))
                  h out err w E (current_path_search_None _ Hlines)).
  split; [exact Hp|].
  exact (main_probe_raised _ _ _ _ _ Hw Hp).
Qed.

(** ** [set_alternative] *)

Lemma set_alternative_converged module cmd n p lk prio cur alts h :
  differs cur p = false ->
  set_alternative exec module cmd n p lk prio cur alts h
  = (inl (SystemExit (ExitJson false [])), h).
Proof. intros Hd. unfold set_alternative. rewrite Hd. reflexivity. Qed.

Lemma set_alternative_check_mode module cmd n p lk prio cur alts h :
  differs cur p = true -> check_mode module = true ->
  set_alternative exec module cmd n p lk prio cur alts h
  = (inl (SystemExit (ExitJson true [("current_path", cur)])), h).
Proof.
  intros Hd Hc. unfold set_alternative, bind. rewrite Hd, Hc. reflexivity.
Qed.

Lemma set_alternative_missing_link module cmd n p lk prio cur alts h :
  differs cur p = true -> check_mode module = false ->
  Py.in_ p alts = false -> Py.not_ lk = true ->
  set_alternative exec module cmd n p lk prio cur alts h
  = (inl (SystemExit (FailJson missing_link)), h).
Proof.
  intros Hd Hc Hin Hlk. unfold set_alternative, bind, try_except.
  rewrite Hd, Hc, Hin. cbv beta iota. unfold ret. cbn [negb].
  destruct lk as [[|a l]|]; [reflexivity|discriminate|reflexivity].
Qed.

Lemma set_alternative_select module cmd n p lk prio cur alts h rc out err w :
  differs cur p = true -> check_mode module = false ->
  Py.in_ p alts = true ->
  exec (world h) (set_args cmd n p) = (rc, out, err, w) ->
  set_alternative exec module cmd n p lk prio cur alts h
  = (inl (if rc =? 0 then SystemExit (ExitJson true [])
          else reported module (set_args cmd n p) rc out err),
     after h w [set_args cmd n p]).
Proof.
  intros Hd Hc Hin E. unfold set_alternative, bind, try_except.
  rewrite Hd, Hc, Hin. cbv beta iota. unfold ret. cbn [negb].
  cbv beta iota. unfold run_command. rewrite E. cbv beta iota.
  cbn [andb]. destruct (rc =? 0); cbn [negb]; cbv beta iota.
  - reflexivity.
  - apply (try_except_failed module _ rc out err).
Qed.

Lemma set_alternative_install module cmd n p l prio cur alts h
    rc1 out1 err1 w1 rc2 out2 err2 w2 :
  differs cur p = true -> check_mode module = false ->
  Py.in_ p alts = false -> Py.not_ (Some l) = false ->
  exec (world h) (install_args cmd l n p prio) = (rc1, out1, err1, w1) ->
  exec w1 (set_args cmd n p) = (rc2, out2, err2, w2) ->
  set_alternative exec module cmd n p (Some l) prio cur alts h
  = if rc1 =? 0 then
      (inl (if rc2 =? 0 then SystemExit (ExitJson true [])
            else reported module (set_args cmd n p) rc2 out2 err2),
       after h w2 [install_args cmd l n p prio; set_args cmd n p])
    else
      (inl (reported module (install_args cmd l n p prio) rc1 out1 err1),
       after h w1 [install_args cmd l n p prio]).
Proof.
  intros Hd Hc Hin Hlk E1 E2. unfold set_alternative, bind, try_except.
  rewrite Hd, Hc, Hin. cbv beta iota. unfold ret. cbn [negb].
  destruct l as [|a l]; [discriminate|]. cbv beta iota.
  unfold run_command. rewrite E1. cbv beta iota. cbn [andb world log].
  destruct (rc1 =? 0); cbn [negb]; cbv beta iota.
  - cbn [world log]. rewrite E2. cbv beta iota. cbn [world log].
    unfold after. rewrite <- app_assoc. cbn [app].
    destruct (rc2 =? 0); cbn [negb]; cbv beta iota.
    + reflexivity.
    + apply (try_except_failed module _ rc2 out2 err2).
  - apply (try_except_failed module _ rc1 out1 err1).
Qed.

(** C8. In a real run of the install-and-select plan (the path is neither
    selected nor a candidate, a link is at hand), the install command is
    issued first.  If it exits non-zero the run ends there with a
    [fail_json] and the set command is never issued.  If it succeeds the set
    command follows; the run reports [changed=true] when the set succeeds
    and ends with a [fail_json] when it does not. *)
Theorem install_before_set module cmd n p l prio cur alts h
    rc1 out1 err1 w1 rc2 out2 err2 w2 :
  differs cur p = true -> check_mode module = false ->
  ~ In p alts -> Py.not_ (Some l) = false ->
  exec (world h) (install_args cmd l n p prio) = (rc1, out1, err1, w1) ->
  exec w1 (set_args cmd n p) = (rc2, out2, err2, w2) ->
  (rc1 <> 0 ->
   exists msg,
     set_alternative exec module cmd n p (Some l) prio cur alts h
     = (inl (SystemExit (FailJson msg)),
        after h w1 [install_args cmd l n p prio]))
  /\ (rc1 = 0 -> rc2 <> 0 ->
      exists msg,
        set_alternative exec module cmd n p (Some l) prio cur alts h
        = (inl (SystemExit (FailJson msg)),
           after h w2 [install_args cmd l n p prio; set_args cmd n p]))
  /\ (rc1 = 0 -> rc2 = 0 ->
      set_alternative exec module cmd n p (Some l) prio cur alts h
      = (inl (SystemExit (ExitJson true [])),
         after h w2 [install_args cmd l n p prio; set_args cmd n p])).
Proof.
  intros Hd Hc Hin Hlk E1 E2. apply in__not_In in Hin.
  rewrite (set_alternative_install module cmd n p l prio cur alts h
             _ _ _ _ _ _ _ _ Hd Hc Hin Hlk E1 E2).
  split; [|split].
  - intros H1. apply Z.eqb_neq in H1. rewrite H1.
    destruct (reported_is_fail_json module (install_args cmd l n p prio)
                rc1 out1 err1) as (msg & ->).
    exists msg. reflexivity.
  - intros -> H2. apply Z.eqb_neq in H2. rewrite H2.
    destruct (reported_is_fail_json module (set_args cmd n p) rc2 out2 err2)
      as (msg & ->).
    exists msg. reflexivity.
  - intros -> ->. reflexivity.
Qed.

(** ** [remove_alternative] *)

Lemma remove_alternative_absent module cmd n p alts h :
  Py.in_ p alts = false ->
  remove_alternative exec module cmd n p alts h
  = (inl (SystemExit (ExitJson false [])), h).
Proof. intros Hin. unfold remove_alternative. rewrite Hin. reflexivity. Qed.

Lemma remove_alternative_candidate module cmd n p alts h rc out err w :
  Py.in_ p alts = true ->
  exec (world h) (remove_args cmd n p) = (rc, out, err, w) ->
  remove_alternative exec module cmd n p alts h
  = (inl (if rc =? 0 then SystemExit (ExitJson true [])
          else reported module (remove_args cmd n p) rc out err),
     after h w [remove_args cmd n p]).
Proof.
  intros Hin E. unfold remove_alternative, bind, try_except.
  rewrite Hin. unfold run_command. rewrite E. cbv beta iota.
  cbn [andb]. destruct (rc =? 0); cbn [negb]; cbv beta iota.
  - reflexivity.
  - apply (try_except_failed module _ rc out err).
Qed.

(** C5. With [state=absent], once the probe has returned: if the path is
    among the candidates, the remove command is the one command issued
    after the probe, and the run reports [changed=true] when that command
    succeeds; if the path is not among them, the run reports
    [changed=false] through [exit_json] (no failure) and issues nothing. *)
Theorem absent_removes_candidates_only module h cmd cur alts lk h'
    rc out err w :
  state (params module) = absent ->
  which module "update-alternatives" = Some cmd ->
  get_current exec module cmd (name (params module)) (link (params module)) h
  = (inr (cur, alts, lk), h') ->
  exec (world h')
    (remove_args cmd (name (params module)) (path (params module)))
  = (rc, out, err, w) ->
  (In (path (params module)) alts ->
   snd (main exec module h)
   = after h' w [remove_args cmd (name (params module)) (path (params module))]
   /\ (rc = 0 -> fst (main exec module h) = inl (SystemExit (ExitJson true []))))
  /\ (~ In (path (params module)) alts ->
      main exec module h = (inl (SystemExit (ExitJson false [])), h')).
Proof.
  intros Hst Hw Hp E. rewrite (main_probed _ _ _ _ _ _ _ Hw Hp), Hst.
  split.
  - intros Hin. apply in__In in Hin.
    rewrite (remove_alternative_candidate _ _ _ _ _ _ _ _ _ _ Hin E).
    split; [reflexivity|]. intros ->. reflexivity.
  - intros Hin. apply in__not_In in Hin.
    apply remove_alternative_absent. exact Hin.
Qed.

(** The removal does not look at [module.check_mode]. *)
Lemma remove_alternative_in_check_mode module module' cmd n p alts h :
  on_nonzero_rc module = on_nonzero_rc module' ->
  remove_alternative exec module cmd n p alts h
  = remove_alternative exec module' cmd n p alts h.
Proof.
  intros Hpol. unfold remove_alternative, bind, try_except, run_command,
    command_failure.
  rewrite Hpol. reflexivity.
Qed.

(** ** The present branch *)

(** C2, as the code has it.  With [state=present], once the probe has
    returned a snapshot in which the path is no candidate and no link is at
    hand (none given, none found by the query): nothing is issued after the
    probe, whatever the mode; and in a real run (no check mode) in which the
    path is not the selected one, the run ends with the [fail_json] that
    names the missing link. *)
Theorem missing_link_is_fatal module h cmd cur alts lk h' :
  state (params module) = present ->
  which module "update-alternatives" = Some cmd ->
  get_current exec module cmd (name (params module)) (link (params module)) h
  = (inr (cur, alts, lk), h') ->
  ~ In (path (params module)) alts ->
  Py.not_ lk = true ->
  snd (main exec module h) = h'
  /\ (check_mode module = false -> cur <> Some (path (params module)) ->
      main exec module h = (inl (SystemExit (FailJson missing_link)), h')).
Proof.
  intros Hst Hw Hp Hin Hlk. apply in__not_In in Hin.
  rewrite (main_probed _ _ _ _ _ _ _ Hw Hp), Hst. split.
  - destruct (differs cur (path (params module))) eqn:Hd.
    + destruct (check_mode module) eqn:Hc.
      * rewrite set_alternative_check_mode by assumption. reflexivity.
      * rewrite set_alternative_missing_link by assumption. reflexivity.
    + rewrite set_alternative_converged by assumption. reflexivity.
  - intros Hc Hd. apply differs_true in Hd.
    apply set_alternative_missing_link; assumption.
Qed.

(** In check mode the present branch issues nothing and reports a change
    whenever the path is not the selected one. *)
Lemma present_in_check_mode module h cmd cur alts lk h' :
  state (params module) = present ->
  check_mode module = true ->
  which module "update-alternatives" = Some cmd ->
  get_current exec module cmd (name (params module)) (link (params module)) h
  = (inr (cur, alts, lk), h') ->
  cur <> Some (path (params module)) ->
  main exec module h
  = (inl (SystemExit (ExitJson true [("current_path", cur)])), h').
Proof.
  intros Hst Hc Hw Hp Hd. apply differs_true in Hd.
  rewrite (main_probed _ _ _ _ _ _ _ Hw Hp), Hst.
  apply set_alternative_check_mode; assumption.
Qed.

Lemma present_real_run module cmd n p lk prio cur alts h w :
  differs cur p = true -> check_mode module = false ->
  In p alts \/ Py.not_ lk = false ->
  all_succeed exec (world h) (present_commands cmd n p lk prio alts) = Some w ->
  set_alternative exec module cmd n p lk prio cur alts h
  = (inl (SystemExit (ExitJson true [])),
     after h w (present_commands cmd n p lk prio alts)).
Proof.
  intros Hd Hc Hplan Hall. unfold present_commands in *.
  destruct (Py.in_ p alts) eqn:Hin.
  - cbn [all_succeed] in Hall.
    destruct (exec (world h) (set_args cmd n p)) as [[[rc out] err] w'] eqn:E.
    destruct (rc =? 0) eqn:Hrc; [|discriminate]. inversion Hall; subst w'.
    rewrite (set_alternative_select _ _ _ _ _ _ _ _ _ _ _ _ _ Hd Hc Hin E).
    rewrite Hrc. reflexivity.
  - destruct Hplan as [Hp|Hlk]; [apply in__In in Hp; congruence|].
    destruct lk as [l|]; [|discriminate].
    cbn [all_succeed] in Hall.
    destruct (exec (world h) (install_args cmd l n p prio))
      as [[[rc1 out1] err1] w1] eqn:E1.
    destruct (rc1 =? 0) eqn:Hrc1; [|discriminate].
    destruct (exec w1 (set_args cmd n p)) as [[[rc2 out2] err2] w2] eqn:E2.
    destruct (rc2 =? 0) eqn:Hrc2; [|discriminate]. inversion Hall; subst w2.
    rewrite (set_alternative_install _ _ _ _ _ _ _ _ _ _ _ _ _ _ _ _ _
               Hd Hc Hin Hlk E1 E2).
    rewrite Hrc1, Hrc2. reflexivity.
Qed.

(** C4. With [state=present]: when the probe finds the path selected, the
    run reports [changed=false] and issues nothing after the probe.  Hence
    two runs in a row: a real first run on a host where the path is not
    selected, whose commands (the install if the path is no candidate, then
    the set) succeed, reports [changed=true]; and when the tool then shows
    the path as the selected one, the second run reports [changed=false]
    and issues nothing after its probe. *)
Theorem present_twice module h cmd :
  state (params module) = present ->
  which module "update-alternatives" = Some cmd ->
  (forall alts lk h',
      get_current exec module cmd (name (params module))
        (link (params module)) h
      = (inr (Some (path (params module)), alts, lk), h') ->
      main exec module h = (inl (SystemExit (ExitJson false [])), h'))
  /\ (forall cur alts lk h1 w2,
        check_mode module = false ->
        get_current exec module cmd (name (params module))
          (link (params module)) h
        = (inr (cur, alts, lk), h1) ->
        cur <> Some (path (params module)) ->
        In (path (params module)) alts \/ Py.not_ lk = false ->
        all_succeed exec (world h1)
          (present_commands cmd (name (params module)) (path (params module))
             lk (priority (params module)) alts) = Some w2 ->
        let h2 :=
          after h1 w2
            (present_commands cmd (name (params module))
               (path (params module)) lk (priority (params module)) alts) in
        main exec module h = (inl (SystemExit (ExitJson true [])), h2)
        /\ forall alts' lk' h3,
            get_current exec module cmd (name (params module))
              (link (params module)) h2
            = (inr (Some (path (params module)), alts', lk'), h3) ->
            main exec module h2 = (inl (SystemExit (ExitJson false [])), h3)).
Proof.
  intros Hst Hw.
  assert (Hconv : forall h0 alts lk h',
             get_current exec module cmd (name (params module))
               (link (params module)) h0
             = (inr (Some (path (params module)), alts, lk), h') ->
             main exec module h0 = (inl (SystemExit (ExitJson false [])), h')).
  { intros h0 alts lk h' Hp.
    rewrite (main_probed _ _ _ _ _ _ _ Hw Hp), Hst.
    apply set_alternative_converged. apply differs_false. reflexivity. }
  split; [apply Hconv|].
  intros cur alts lk h1 w2 Hc Hp Hd Hplan Hall h2. split.
  - rewrite (main_probed _ _ _ _ _ _ _ Hw Hp), Hst.
    apply differs_true in Hd.
    apply present_real_run; assumption.
  - apply Hconv.
Qed.

(** ** The probe *)

(** C7. On the report of the parse-fidelity property the search for the
    current path gives [/usr/bin/vim.basic] and the candidates found are
    [/usr/bin/vim.basic] and [/usr/bin/vim.tiny], no other.  A probe whose
    display command succeeds with that report returns them when a link was
    given; without a link it returns them too, unless the lookup of the
    link in the query report raises. *)
Theorem parse_fidelity module cmd n lk h err w :
  exec (world h) (display_args cmd n) = (0, vim_report, err, w) ->
  Re.current_path_regex_search vim_report = Some "/usr/bin/vim.basic"
  /\ Re.alternative_regex_findall vim_report
     = ["/usr/bin/vim.basic"; "/usr/bin/vim.tiny"]
  /\ (Py.not_ lk = false ->
      get_current exec module cmd n lk h
      = (inr (Some "/usr/bin/vim.basic",
              ["/usr/bin/vim.basic"; "/usr/bin/vim.tiny"], lk),
         after h w [display_args cmd n]))
  /\ match fst (get_current exec module cmd n lk h) with
     | inr (cur, alts, _) =>
         cur = Some "/usr/bin/vim.basic"
         /\ alts = ["/usr/bin/vim.basic"; "/usr/bin/vim.tiny"]
     | inl e => e = IndexError
     end.
Proof.
  intros E.
  assert (Hcur : Re.current_path_regex_search vim_report
                 = Some "/usr/bin/vim.basic") by reflexivity.
  assert (Halts : Re.alternative_regex_findall vim_report
                  = ["/usr/bin/vim.basic"; "/usr/bin/vim.tiny"])
    by reflexivity.
  split; [exact Hcur|]. split; [exact Halts|]. split.
  - intros Hlk.
    rewrite (get_current_registered module cmd n lk h _ _ _ _ E Hcur Hlk).
    rewrite Halts. reflexivity.
  - destruct (Py.not_ lk) eqn:Hlk.
    + destruct (exec w (query_args cmd n)) as [[[rc qout] qerr] w'] eqn:Eq.
      rewrite (get_current_queried module cmd n lk h _ _ _ _ _ _ _ _
                 E Hcur Hlk Eq).
      rewrite Halts. cbn [fst].
      destruct (rc =? 0); [|split; reflexivity].
      destruct (find (Py.startswith "Link:") (Py.splitlines qout)) as [line|];
        [|split; reflexivity].
      destruct (Py.split line) as [|? [|? ?]];
        first [reflexivity | split; reflexivity].
    + rewrite (get_current_registered module cmd n lk h _ _ _ _ E Hcur Hlk).
      rewrite Halts. split; reflexivity.
Qed.

(** C9. The query command is issued only when no link was given and the
    display command succeeded: with a link, or after a failed display, the
    display command is the only one the probe issues.  When it is issued
    and succeeds, the link returned is the second word of the first line
    that starts with [Link:]; when it exits non-zero, or no line starts
    with [Link:], the probe returns normally with the link it was given,
    which is none. *)
Theorem link_from_query module cmd n lk h rc out err w :
  exec (world h) (display_args cmd n) = (rc, out, err, w) ->
  (rc <> 0 \/ Py.not_ lk = false ->
   snd (get_current exec module cmd n lk h) = after h w [display_args cmd n])
  /\ (forall g qrc qout qerr w',
        rc = 0 -> Py.not_ lk = true ->
        Re.current_path_regex_search out = Some g ->
        exec w (query_args cmd n) = (qrc, qout, qerr, w') ->
        (forall line word0 word1 words,
            qrc = 0 ->
            find (Py.startswith "Link:") (Py.splitlines qout) = Some line ->
            Py.split line = word0 :: word1 :: words ->
            get_current exec module cmd n lk h
            = (inr (Some g, Re.alternative_regex_findall out, Some word1),
               after h w' [display_args cmd n; query_args cmd n]))
        /\ (qrc <> 0
            \/ find (Py.startswith "Link:") (Py.splitlines qout) = None ->
            get_current exec module cmd n lk h
            = (inr (Some g, Re.alternative_regex_findall out, lk),
               after h w' [display_args cmd n; query_args cmd n]))).
Proof.
  intros E. split.
  - intros Hno. destruct (Z.eq_dec rc 0) as [->|Hrc].
    + destruct Hno as [Hno|Hlk]; [congruence|].
      destruct (Re.current_path_regex_search out) as [g|] eqn:Hg.
      * rewrite (get_current_registered module cmd n lk h _ _ _ _ E Hg Hlk).
        reflexivity.
      * rewrite (get_current_unparsable module cmd n lk h _ _ _ E Hg).
        reflexivity.
    + rewrite (get_current_display_failed module cmd n lk h _ _ _ _ E Hrc).
      reflexivity.
  - intros g qrc qout qerr w' -> Hlk Hg Eq.
    rewrite (get_current_queried module cmd n lk h _ _ _ _ _ _ _ _
               E Hg Hlk Eq).
    split.
    + intros line word0 word1 words -> Hline Hsplit.
      cbn [Z.eqb]. rewrite Hline, Hsplit. reflexivity.
    + intros [Hq|Hnone].
      * apply Z.eqb_neq in Hq. rewrite Hq. reflexivity.
      * rewrite Hnone. destruct (qrc =? 0); reflexivity.
Qed.

(** ** The absent branch and the parameters it does not read *)

(** C10. Two runs with [state=absent] whose modules differ in [link] and
    [priority] only, and whose probes returned the same snapshot and left
    the tool in the same world, end alike: the same result (the [changed]
    flag or the failure), the same world, and the same commands issued
    after the probe. *)
Theorem absent_ignores_link_and_priority module1 module2 h1 h2 cmd
    cur alts lk1 lk2 h1' h2' :
  state (params module1) = absent ->
  state (params module2) = absent ->
  name (params module1) = name (params module2) ->
  path (params module1) = path (params module2) ->
  check_mode module1 = check_mode module2 ->
  on_nonzero_rc module1 = on_nonzero_rc module2 ->
  which module1 "update-alternatives" = Some cmd ->
  which module2 "update-alternatives" = Some cmd ->
  get_current exec module1 cmd (name (params module1))
    (link (params module1)) h1 = (inr (cur, alts, lk1), h1') ->
  get_current exec module2 cmd (name (params module2))
    (link (params module2)) h2 = (inr (cur, alts, lk2), h2') ->
  world h1' = world h2' ->
  fst (main exec module1 h1) = fst (main exec module2 h2)
  /\ world (snd (main exec module1 h1)) = world (snd (main exec module2 h2))
  /\ exists cmds,
      issued h1' (snd (main exec module1 h1)) cmds
      /\ issued h2' (snd (main exec module2 h2)) cmds.
Proof.
  intros Hs1 Hs2 Hn Hpath Hc Hpol Hw1 Hw2 Hp1 Hp2 Hworld.
  rewrite (main_probed _ _ _ _ _ _ _ Hw1 Hp1), Hs1.
  rewrite (main_probed _ _ _ _ _ _ _ Hw2 Hp2), Hs2.
  rewrite <- Hn, <- Hpath.
  destruct (Py.in_ (path (params module1)) alts) eqn:Hin.
  - destruct (exec (world h1')
                (remove_args cmd (name (params module1))
                   (path (params module1))))
      as [[[rc out] err] w] eqn:E1.
    assert (E2 := E1). rewrite Hworld in E2.
    rewrite (remove_alternative_candidate module1 _ _ _ _ _ _ _ _ _ Hin E1).
    rewrite (remove_alternative_candidate module2 _ _ _ _ _ _ _ _ _ Hin E2).
    unfold reported, command_failure. rewrite Hpol.
    split; [reflexivity|]. split; [reflexivity|].
    eexists. split; reflexivity.
  - rewrite !remove_alternative_absent by assumption.
    split; [reflexivity|]. split; [exact Hworld|].
    exists []. unfold issued. rewrite !app_nil_r. split; reflexivity.
Qed.

End Properties.

(** * The module on concrete hosts *)

(** Closes a goal about a run on a concrete host by running it. *)
Ltac run := lazy; reflexivity.

(** C1. Check mode, [state=absent], the path [/usr/bin/vim.tiny] a
    candidate of the group: the run reports [changed=true], and it has
    issued the remove command, after which the tool has lost the
    candidate. *)
Theorem check_mode_removal_is_executed :
  check_mode (Tool.module_ "vim" "/usr/bin/vim.tiny" None 50 absent true)
  = true
  /\ main Tool.exec
       (Tool.module_ "vim" "/usr/bin/vim.tiny" None 50 absent true)
       (Tool.host Tool.vim_world)
     = (inl (SystemExit (ExitJson true [])),
        {| world :=
             {| Tool.has_query := true;
                Tool.groups :=
                  [("vim",
                    {| Tool.g_link := "/usr/bin/vim";
                       Tool.g_current := "/usr/bin/vim.basic";
                       Tool.g_candidates := [("/usr/bin/vim.basic", "30")] |})]
             |};
           log := [display_args Tool.cmd "vim"; query_args Tool.cmd "vim";
                   remove_args Tool.cmd "vim" "/usr/bin/vim.tiny"] |}).
Proof. split; reflexivity. Qed.

(** C2, as stated, fails in check mode: on a host without the group, with
    no link given, the probe returns no candidate and no link, and the run
    reports [changed=true] where the claim wants the failure about the
    missing link. *)
Lemma missing_link_unnoticed_in_check_mode :
  get_current Tool.exec
    (Tool.module_ "vim" "/usr/bin/vim.nox" None 50 present true)
    Tool.cmd "vim" None (Tool.host Tool.empty_world)
  = (inr (None, [], None),
     after (Tool.host Tool.empty_world) Tool.empty_world
       [display_args Tool.cmd "vim"])
  /\ main Tool.exec
       (Tool.module_ "vim" "/usr/bin/vim.nox" None 50 present true)
       (Tool.host Tool.empty_world)
     = (inl (SystemExit (ExitJson true [("current_path", None)])),
        after (Tool.host Tool.empty_world) Tool.empty_world
          [display_args Tool.cmd "vim"])
  /\ fst (main Tool.exec
            (Tool.module_ "vim" "/usr/bin/vim.nox" None 50 present true)
            (Tool.host Tool.empty_world))
     <> inl (SystemExit (FailJson missing_link)).
Proof. split; [reflexivity|]. split; [reflexivity|]. discriminate. Qed.

(** The same claim fails as well when the report names the path as the
    selected one without listing it as a candidate: the run reports
    [changed=false]. *)
Lemma missing_link_unnoticed_when_selected :
  main (Tool.scripted
          (Tool.always ("link currently points to /usr/bin/vim.nox" ++ Py.nl)))
    (Tool.module_ "vim" "/usr/bin/vim.nox" None 50 present false)
    {| world := tt; log := [] |}
  = (inl (SystemExit (ExitJson false [])),
     {| world := tt;
        log := [display_args Tool.cmd "vim"; query_args Tool.cmd "vim"] |}).
Proof. reflexivity. Qed.

Lemma missing_link_is_fatal_witness :
  fst (main Tool.exec
         (Tool.module_ "vim" "/usr/bin/vim.nox" None 50 present false)
         (Tool.host Tool.empty_world))
  = inl (SystemExit (FailJson missing_link)).
Proof.
  edestruct (missing_link_is_fatal Tool.World Tool.exec
               (Tool.module_ "vim" "/usr/bin/vim.nox" None 50 present false)
               (Tool.host Tool.empty_world) Tool.cmd None [] None)
    as [_ H].
  - reflexivity.
  - reflexivity.
  - reflexivity.
  - intros [].
  - reflexivity.
  - rewrite H; [reflexivity|reflexivity|discriminate].
Defined.

Lemma unparsable_report_is_raised_witness :
  main (Tool.scripted (Tool.always "no report here"))
    (Tool.module_ "vim" "/usr/bin/vim.nox" None 50 present false)
    {| world := tt; log := [] |}
  = (inl AttributeError,
     {| world := tt; log := [display_args Tool.cmd "vim"] |}).
Proof.
  apply (unparsable_report_is_raised unit
           (Tool.scripted (Tool.always "no report here"))
           (Tool.module_ "vim" "/usr/bin/vim.nox" None 50 present false)
           Tool.cmd {| world := tt; log := [] |} "no report here" "" tt).
  - reflexivity.
  - reflexivity.
  - intros l [<-|[]]. reflexivity.
Defined.

Lemma present_twice_witness :
  fst (main Tool.exec
         (Tool.module_ "vim" "/usr/bin/vim.nox" None 50 present false)
         (Tool.host Tool.vim_world))
  = inl (SystemExit (ExitJson true []))
  /\ fst (main Tool.exec
            (Tool.module_ "vim" "/usr/bin/vim.nox" None 50 present false)
            (snd (main Tool.exec
                    (Tool.module_ "vim" "/usr/bin/vim.nox" None 50 present
                       false)
                    (Tool.host Tool.vim_world))))
     = inl (SystemExit (ExitJson false [])).
Proof.
  destruct (present_twice Tool.World Tool.exec
              (Tool.module_ "vim" "/usr/bin/vim.nox" None 50 present false)
              (Tool.host Tool.vim_world) Tool.cmd eq_refl eq_refl)
    as [_ H].
  destruct (H (Some "/usr/bin/vim.basic")
              ["/usr/bin/vim.basic"; "/usr/bin/vim.tiny"]
              (Some "/usr/bin/vim")
              (after (Tool.host Tool.vim_world) Tool.vim_world
                 [display_args Tool.cmd "vim"; query_args Tool.cmd "vim"])
              (snd (Tool.exec
                      (snd (Tool.exec Tool.vim_world
                              (install_args Tool.cmd "/usr/bin/vim" "vim"
                                 "/usr/bin/vim.nox" 50)))
                      (set_args Tool.cmd "vim" "/usr/bin/vim.nox"))))
    as [H1 H2].
  - reflexivity.
  - reflexivity.
  - discriminate.
  - right. reflexivity.
  - reflexivity.
  - rewrite H1. split; [reflexivity|].
    cbn [snd]. erewrite H2; [reflexivity|lazy; reflexivity].
Defined.

Lemma absent_removes_candidates_only_witness :
  fst (main Tool.exec
         (Tool.module_ "vim" "/usr/bin/vim.tiny" None 50 absent false)
         (Tool.host Tool.vim_world))
  = inl (SystemExit (ExitJson true []))
  /\ main Tool.exec
       (Tool.module_ "vim" "/usr/bin/vim.nox" None 50 absent false)
       (Tool.host Tool.vim_world)
     = (inl (SystemExit (ExitJson false [])),
        after (Tool.host Tool.vim_world) Tool.vim_world
          [display_args Tool.cmd "vim"; query_args Tool.cmd "vim"]).
Proof.
  split.
  - edestruct (absent_removes_candidates_only Tool.World Tool.exec
                 (Tool.module_ "vim" "/usr/bin/vim.tiny" None 50 absent false)
                 (Tool.host Tool.vim_world) Tool.cmd)
      as [H _]; [run|run|run|run|].
    apply H; [right; left; reflexivity|reflexivity].
  - edestruct (absent_removes_candidates_only Tool.World Tool.exec
                 (Tool.module_ "vim" "/usr/bin/vim.nox" None 50 absent false)
                 (Tool.host Tool.vim_world) Tool.cmd)
      as [_ H]; [run|run|run|run|].
    apply H. intros [E|[E|[]]]; discriminate E.
Defined.

Lemma get_current_unregistered_witness :
  get_current Tool.exec
    (Tool.module_ "vim" "/usr/bin/vim.nox" None 50 present false)
    Tool.cmd "vim" None (Tool.host Tool.empty_world)
  = (inr (None, [], None),
     after (Tool.host Tool.empty_world) Tool.empty_world
       [display_args Tool.cmd "vim"]).
Proof.
  apply (get_current_unregistered Tool.World Tool.exec
           (Tool.module_ "vim" "/usr/bin/vim.nox" None 50 present false)
           Tool.cmd "vim" None (Tool.host Tool.empty_world)
           2 "" "no alternatives for vim" Tool.empty_world).
  - reflexivity.
  - discriminate.
Defined.

(** A line [Link:] without a path: [line.split()[1]] raises, and the run
    ends with the [IndexError]. *)
Lemma link_line_without_path_raises :
  main (Tool.scripted
          (Tool.always ("link currently points to /usr/bin/vim.basic" ++ Py.nl
                        ++ "Link:" ++ Py.nl)))
    (Tool.module_ "vim" "/usr/bin/vim.basic" None 50 present false)
    {| world := tt; log := [] |}
  = (inl IndexError,
     {| world := tt;
        log := [display_args Tool.cmd "vim"; query_args Tool.cmd "vim"] |}).
Proof. reflexivity. Qed.

Lemma parse_fidelity_witness :
  get_current (Tool.scripted (Tool.always vim_report))
    (Tool.module_ "vim" "/usr/bin/vim.tiny" (Some "/usr/bin/vim") 50 present
       false)
    Tool.cmd "vim" (Some "/usr/bin/vim") {| world := tt; log := [] |}
  = (inr (Some "/usr/bin/vim.basic",
          ["/usr/bin/vim.basic"; "/usr/bin/vim.tiny"], Some "/usr/bin/vim"),
     {| world := tt; log := [display_args Tool.cmd "vim"] |}).
Proof.
  destruct (parse_fidelity unit (Tool.scripted (Tool.always vim_report))
              (Tool.module_ "vim" "/usr/bin/vim.tiny" (Some "/usr/bin/vim")
                 50 present false)
              Tool.cmd "vim" (Some "/usr/bin/vim")
              {| world := tt; log := [] |} "" tt eq_refl)
    as (_ & _ & H & _).
  apply H. reflexivity.
Defined.

Lemma install_before_set_witness :
  set_alternative Tool.exec
    (Tool.module_ "vim" "/usr/bin/vim.nox" (Some "/usr/bin/vim") 50 present
       false)
    Tool.cmd "vim" "/usr/bin/vim.nox" (Some "/usr/bin/vim") 50
    (Some "/usr/bin/vim.basic") ["/usr/bin/vim.basic"; "/usr/bin/vim.tiny"]
    (Tool.host Tool.vim_world)
  = (inl (SystemExit (ExitJson true [])),
     after (Tool.host Tool.vim_world)
       (snd (Tool.exec
               (snd (Tool.exec Tool.vim_world
                       (install_args Tool.cmd "/usr/bin/vim" "vim"
                          "/usr/bin/vim.nox" 50)))
               (set_args Tool.cmd "vim" "/usr/bin/vim.nox")))
       [install_args Tool.cmd "/usr/bin/vim" "vim" "/usr/bin/vim.nox" 50;
        set_args Tool.cmd "vim" "/usr/bin/vim.nox"]).
Proof.
  edestruct (install_before_set Tool.World Tool.exec
               (Tool.module_ "vim" "/usr/bin/vim.nox" (Some "/usr/bin/vim")
                  50 present false)
               Tool.cmd "vim" "/usr/bin/vim.nox" "/usr/bin/vim" 50
               (Some "/usr/bin/vim.basic")
               ["/usr/bin/vim.basic"; "/usr/bin/vim.tiny"]
               (Tool.host Tool.vim_world))
    as (_ & _ & H).
  - run.
  - run.
  - intros [E|[E|[]]]; discriminate E.
  - run.
  - run.
  - run.
  - rewrite H; reflexivity.
Defined.

Lemma link_from_query_witness :
  get_current Tool.exec
    (Tool.module_ "vim" "/usr/bin/vim.nox" None 50 present false)
    Tool.cmd "vim" None (Tool.host Tool.vim_world)
  = (inr (Some "/usr/bin/vim.basic",
          ["/usr/bin/vim.basic"; "/usr/bin/vim.tiny"], Some "/usr/bin/vim"),
     after (Tool.host Tool.vim_world) Tool.vim_world
       [display_args Tool.cmd "vim"; query_args Tool.cmd "vim"]).
Proof.
  edestruct (link_from_query Tool.World Tool.exec
               (Tool.module_ "vim" "/usr/bin/vim.nox" None 50 present false)
               Tool.cmd "vim" None (Tool.host Tool.vim_world))
    as [_ H]; [run|].
  edestruct H as [H1 _]; [run|run|run|run|].
  erewrite H1; run.
Defined.

Lemma absent_ignores_link_and_priority_witness :
  fst (main Tool.exec
         (Tool.module_ "vim" "/usr/bin/vim.tiny" None 50 absent false)
         (Tool.host Tool.vim_world))
  = fst (main Tool.exec
           (Tool.module_ "vim" "/usr/bin/vim.tiny" (Some "/usr/bin/vim") 10
              absent false)
           (Tool.host Tool.vim_world)).
Proof.
  edestruct (absent_ignores_link_and_priority Tool.World Tool.exec
               (Tool.module_ "vim" "/usr/bin/vim.tiny" None 50 absent false)
               (Tool.module_ "vim" "/usr/bin/vim.tiny" (Some "/usr/bin/vim")
                  10 absent false)
               (Tool.host Tool.vim_world) (Tool.host Tool.vim_world) Tool.cmd)
    as [H _]; [run|run|run|run|run|run|run|run|run|run|run|].
  exact H.
Defined.

(** * More of the code *)

(** ** The search for the current path, line by line *)

Lemma lines_of_dot_star s : exists ls, lines_of s = Re.dot_star s :: ls.
Proof.
  induction s as [|c s (ls & IH)]; simpl.
  - eauto.
  - destruct (Py.is_lf c); [eauto|]. rewrite IH. eauto.
Qed.

Lemma strip_prefix_of_dot_star p : forall s r,
  Py.strip_prefix p (Re.dot_star s) = Some r ->
  exists r', Py.strip_prefix p s = Some r' /\ Re.dot_star r' = r.
Proof.
  induction p as [|a p IH]; intros s r H.
  - simpl in H. inversion H. exists s. auto.
  - destruct s as [|c s]; [discriminate|].
    simpl in H. destruct (Py.is_lf c) eqn:Hc; [discriminate|].
    simpl in H. simpl. destruct (Ascii.eqb a c); [|discriminate].
    apply IH. exact H.
Qed.

Lemma strip_prefix_dot_star p : forall s r,
  (forall c, In c (list_ascii_of_string p) -> Py.is_lf c = false) ->
  Py.strip_prefix p s = Some r ->
  Py.strip_prefix p (Re.dot_star s) = Some (Re.dot_star r).
Proof.
  induction p as [|a p IH]; intros s r Hp H.
  - simpl in H. inversion H. reflexivity.
  - destruct s as [|c s]; [discriminate|].
    simpl in H. destruct (Ascii.eqb a c) eqn:Eac; [|discriminate].
    apply Ascii.eqb_eq in Eac. subst c.
    simpl. rewrite (Hp a) by (simpl; auto). simpl.
    rewrite Ascii.eqb_refl. apply IH; [|exact H].
    intros c Hc. apply Hp. simpl. auto.
Qed.

Lemma match_at_String c s :
  Re.current_path_match_at (String c s)
  = if Py.isspace c then Re.current_path_match_at s
    else
      match Py.strip_prefix Re.current_path_literal (String c s) with
      | Some r => Some (Re.dot_star r)
      | None => None
      end.
Proof.
  unfold Re.current_path_match_at.
  change (Re.skip_spaces (String c s))
    with (if Py.isspace c then Re.skip_spaces s else String c s).
  destruct (Py.isspace c); reflexivity.
Qed.

Lemma line_path_String c l :
  line_path (String c l)
  = if Py.isspace c then line_path l
    else Py.strip_prefix Re.current_path_literal (String c l).
Proof.
  unfold line_path.
  change (Re.skip_spaces (String c l))
    with (if Py.isspace c then Re.skip_spaces l else String c l).
  destruct (Py.isspace c); reflexivity.
Qed.

Lemma not_space_not_lf c : Py.isspace c = false -> Py.is_lf c = false.
Proof.
  intros H. destruct (Py.is_lf c) eqn:E; [|reflexivity].
  apply isspace_lf in E. congruence.
Qed.

Lemma match_at_first_path : forall s g,
  Re.current_path_match_at s = Some g -> first_path (lines_of s) = Some g.
Proof.
  induction s as [|c s IH]; intros g H.
  - discriminate.
  - rewrite match_at_String in H. destruct (Py.isspace c) eqn:Ec.
    + specialize (IH g H). simpl. destruct (Py.is_lf c).
      * exact IH.
      * destruct (lines_of s) as [|l0 ls]; [discriminate|].
        cbn [first_path] in *. rewrite line_path_String, Ec. exact IH.
    + destruct (Py.strip_prefix Re.current_path_literal (String c s))
        as [r|] eqn:E; [|discriminate].
      inversion H; subst g.
      destruct (lines_of_dot_star (String c s)) as (ls & ->).
      cbn [first_path].
      assert (Hd : Re.dot_star (String c s) = String c (Re.dot_star s)).
      { simpl. rewrite (not_space_not_lf _ Ec). reflexivity. }
      assert (Hl : line_path (Re.dot_star (String c s))
                   = Some (Re.dot_star r)).
      { rewrite Hd, line_path_String, Ec, <- Hd.
        apply strip_prefix_dot_star;
          [exact current_path_literal_one_line|exact E]. }
      rewrite Hl. reflexivity.
Qed.

Lemma line_path_match_at : forall s r,
  line_path (Re.dot_star s) = Some r -> Re.current_path_match_at s = Some r.
Proof.
  induction s as [|c s IH]; intros r H.
  - discriminate.
  - simpl in H. destruct (Py.is_lf c) eqn:Hc; [discriminate|].
    rewrite line_path_String in H. rewrite match_at_String.
    destruct (Py.isspace c) eqn:Ec.
    + apply IH. exact H.
    + replace (String c (Re.dot_star s)) with (Re.dot_star (String c s)) in H
        by (simpl; rewrite Hc; reflexivity).
      destruct (strip_prefix_of_dot_star _ _ _ H) as (r' & -> & <-).
      reflexivity.
Qed.

Lemma current_path_search_lines : forall s,
  Re.current_path_search_from true s = first_path (lines_of s)
  /\ Re.current_path_search_from false s = first_path (tl (lines_of s)).
Proof.
  induction s as [|c s [IHt IHf]].
  - split; reflexivity.
  - assert (Hf : Re.current_path_search_from false (String c s)
                 = first_path (tl (lines_of (String c s)))).
    { cbn [Re.current_path_search_from lines_of].
      destruct (Py.is_lf c); cbn [tl].
      - exact IHt.
      - rewrite IHf. destruct (lines_of s); reflexivity. }
    split; [|exact Hf].
    cbn [Re.current_path_search_from].
    destruct (Re.current_path_match_at (String c s)) as [g|] eqn:E.
    + symmetry. apply match_at_first_path. exact E.
    + change (Re.current_path_search_from (Py.is_lf c) s)
        with (Re.current_path_search_from false (String c s)).
      rewrite Hf.
      destruct (lines_of_dot_star (String c s)) as (ls & ->).
      cbn [first_path tl].
      destruct (line_path (Re.dot_star (String c s))) as [r|] eqn:El;
        [|reflexivity].
      apply line_path_match_at in El. congruence.
Qed.

(** X1. The search with the current-path pattern is a scan of the lines of
    the report: it gives what follows "link currently points to " on the
    first line that starts with it after optional blanks, and nothing when
    no line does. *)
Theorem current_path_search_is_first_line s :
  Re.current_path_regex_search s = first_path (lines_of s).
Proof. exact (proj1 (current_path_search_lines s)). Qed.

(** ** The candidates the probe finds *)

Lemma alternative_dot_star_one_line : forall s g,
  Re.alternative_dot_star s = Some g -> one_line g = true.
Proof.
  induction s as [|c s IH]; intros g H.
  - discriminate.
  - cbn [Re.alternative_dot_star] in H. destruct (Py.is_lf c) eqn:Hc.
    + destruct (Re.priority_tail (String c s)); inversion H. reflexivity.
    + destruct (Re.alternative_dot_star s) as [g'|].
      * inversion H. cbn [one_line]. rewrite Hc. apply IH. reflexivity.
      * destruct (Re.priority_tail (String c s)); inversion H. reflexivity.
Qed.

Lemma alternative_match_at_shape s g :
  Re.alternative_match_at s = Some g ->
  Py.startswith "/" g = true /\ one_line g = true.
Proof.
  destruct s as [|c s]; [discriminate|]. unfold Re.alternative_match_at.
  destruct (Ascii.eqb c "/"); [|discriminate].
  destruct (Re.alternative_dot_star s) as [g'|] eqn:E; [|discriminate].
  intros H. inversion H. split; [reflexivity|].
  exact (alternative_dot_star_one_line _ _ E).
Qed.

Lemma alternative_findall_from_shape : forall s skip bol,
  Forall (fun g => Py.startswith "/" g = true /\ one_line g = true)
    (Re.alternative_findall_from skip bol s).
Proof.
  induction s as [|c s IH]; intros skip bol.
  - constructor.
  - cbn [Re.alternative_findall_from]. destruct skip as [|k]; [|apply IH].
    destruct (if bol then Re.alternative_match_at (String c s) else None)
      as [g|] eqn:E; [|apply IH].
    constructor; [|apply IH].
    destruct bol; [|discriminate].
    exact (alternative_match_at_shape _ _ E).
Qed.

(** X2. Every candidate the probe reads off a report, whatever the report,
    starts with a slash and holds no line break. *)
Theorem candidates_are_absolute_one_line s :
  Forall (fun g => Py.startswith "/" g = true /\ one_line g = true)
    (Re.alternative_regex_findall s).
Proof. apply alternative_findall_from_shape. Qed.

(** ** What a run issues and how it ends *)

Section MoreProperties.

Variable W : Type.
Variable exec : W -> list string -> (Z * string * string) * W.

Implicit Types (module : AnsibleModule) (h : Host W) (args : list string).

Lemma get_current_cases module cmd n lk h :
  let r := get_current exec module cmd n lk h in
  (issued h (snd r) [display_args cmd n]
   \/ issued h (snd r) [display_args cmd n; query_args cmd n])
  /\ (fst r = inl AttributeError \/ fst r = inl IndexError
      \/ exists x, fst r = inr x).
Proof.
  destruct (exec (world h) (display_args cmd n)) as [[[rc out] err] w] eqn:E.
  destruct (Z.eq_dec rc 0) as [->|Hrc]; cbv zeta.
  - destruct (Re.current_path_regex_search out) as [g|] eqn:Hg.
    + destruct (Py.not_ lk) eqn:Hlk.
      * destruct (exec w (query_args cmd n)) as [[[qrc qout] qerr] w'] eqn:Eq.
        rewrite (get_current_queried W exec module cmd n lk h _ _ _ _ _ _ _ _
                   E Hg Hlk Eq).
        split; [right; reflexivity|]. cbn [fst].
        destruct (qrc =? 0);
          [|right; right; eexists; reflexivity].
        destruct (find (Py.startswith "Link:") (Py.splitlines qout))
          as [line|]; [|right; right; eexists; reflexivity].
        destruct (Py.split line) as [|? [|? ?]];
          first [right; left; reflexivity
                |right; right; eexists; reflexivity].
      * rewrite (get_current_registered W exec module cmd n lk h _ _ _ _
                   E Hg Hlk).
        split; [left; reflexivity|right; right; eexists; reflexivity].
    + rewrite (get_current_unparsable W exec module cmd n lk h _ _ _ E Hg).
      split; [left; reflexivity|left; reflexivity].
  - rewrite (get_current_display_failed W exec module cmd n lk h _ _ _ _
               E Hrc).
    split; [left; reflexivity|right; right; eexists; reflexivity].
Qed.

(** X3. Whatever the tool answers, the probe issues the display command
    and, at most, the query command after it: never a command that changes
    the tool's registrations. *)
Theorem probe_only_reads module cmd n lk h :
  issued h (snd (get_current exec module cmd n lk h)) [display_args cmd n]
  \/ issued h (snd (get_current exec module cmd n lk h))
       [display_args cmd n; query_args cmd n].
Proof. exact (proj1 (get_current_cases module cmd n lk h)). Qed.

Lemma set_alternative_exits module cmd n p lk prio cur alts h :
  exists r,
    fst (set_alternative exec module cmd n p lk prio cur alts h)
    = inl (SystemExit r).
Proof.
  destruct (differs cur p) eqn:Hd.
  2:{ rewrite set_alternative_converged by assumption. eexists; reflexivity. }
  destruct (check_mode module) eqn:Hc.
  { rewrite set_alternative_check_mode by assumption. eexists; reflexivity. }
  destruct (Py.in_ p alts) eqn:Hin.
  - destruct (exec (world h) (set_args cmd n p)) as [[[rc out] err] w] eqn:E.
    rewrite (set_alternative_select W exec module cmd n p lk prio cur alts h
               _ _ _ _ Hd Hc Hin E).
    cbn [fst]. destruct (rc =? 0); [eexists; reflexivity|].
    destruct (reported_is_fail_json module (set_args cmd n p) rc out err)
      as (msg & ->). eexists; reflexivity.
  - destruct (Py.not_ lk) eqn:Hlk.
    { rewrite set_alternative_missing_link by assumption. eexists; reflexivity. }
    destruct lk as [l|]; [|discriminate].
    destruct (exec (world h) (install_args cmd l n p prio))
      as [[[rc1 out1] err1] w1] eqn:E1.
    destruct (exec w1 (set_args cmd n p)) as [[[rc2 out2] err2] w2] eqn:E2.
    rewrite (set_alternative_install W exec module cmd n p l prio cur alts h
               _ _ _ _ _ _ _ _ Hd Hc Hin Hlk E1 E2).
    destruct (rc1 =? 0); cbn [fst].
    + destruct (rc2 =? 0); [eexists; reflexivity|].
      destruct (reported_is_fail_json module (set_args cmd n p) rc2 out2 err2)
        as (msg & ->). eexists; reflexivity.
    + destruct (reported_is_fail_json module (install_args cmd l n p prio)
                  rc1 out1 err1) as (msg & ->). eexists; reflexivity.
Qed.

Lemma remove_alternative_exits module cmd n p alts h :
  exists r,
    fst (remove_alternative exec module cmd n p alts h) = inl (SystemExit r).
Proof.
  destruct (Py.in_ p alts) eqn:Hin.
  - destruct (exec (world h) (remove_args cmd n p))
      as [[[rc out] err] w] eqn:E.
    rewrite (remove_alternative_candidate W exec module cmd n p alts h
               _ _ _ _ Hin E).
    cbn [fst]. destruct (rc =? 0); [eexists; reflexivity|].
    destruct (reported_is_fail_json module (remove_args cmd n p) rc out err)
      as (msg & ->). eexists; reflexivity.
  - rewrite remove_alternative_absent by assumption. eexists; reflexivity.
Qed.

(** X4. Every run of [main] ends through [exit_json] or [fail_json], or
    with one of the two exceptions of the probe ([AttributeError] from the
    search, [IndexError] from the link line): it never falls off the end
    without a result, and the [CalledProcessError] of a failed command never
    leaves it. *)
Theorem main_always_reports module h :
  (exists r, fst (main exec module h) = inl (SystemExit r))
  \/ fst (main exec module h) = inl AttributeError
  \/ fst (main exec module h) = inl IndexError.
Proof.
  destruct (which module "update-alternatives") as [cmd|] eqn:Hw.
  2:{ left. unfold main, bind, get_bin_path. rewrite Hw.
      eexists. reflexivity. }
  destruct (get_current_cases module cmd (name (params module))
              (link (params module)) h) as [_ Hr].
  destruct (get_current exec module cmd (name (params module))
              (link (params module)) h) as [[e|[[cur alts] lk]] h'] eqn:Hp.
  - rewrite (main_probe_raised W exec module h cmd e h' Hw Hp).
    cbn [fst] in *.
    destruct Hr as [Hr|[Hr|[x Hx]]];
      [inversion Hr; auto|inversion Hr; auto|discriminate].
  - left. rewrite (main_probed W exec module h cmd cur alts lk h' Hw Hp).
    destruct (state (params module)).
    + apply set_alternative_exits.
    + apply remove_alternative_exits.
Qed.

(** X5. Selecting a path that is a candidate already, in a real run: the
    set command is the one command issued, the run reports [changed=true]
    when it succeeds and fails when it does not, and neither the link nor
    the priority has a say. *)
Theorem select_only module cmd n p lk prio lk' prio' cur alts h :
  differs cur p = true -> check_mode module = false -> In p alts ->
  issued h (snd (set_alternative exec module cmd n p lk prio cur alts h))
    [set_args cmd n p]
  /\ (fst (set_alternative exec module cmd n p lk prio cur alts h)
      = inl (SystemExit (ExitJson true []))
      <-> fst (fst (fst (exec (world h) (set_args cmd n p)))) = 0)
  /\ set_alternative exec module cmd n p lk prio cur alts h
     = set_alternative exec module cmd n p lk' prio' cur alts h.
Proof.
  intros Hd Hc Hin. apply in__In in Hin.
  destruct (exec (world h) (set_args cmd n p)) as [[[rc out] err] w] eqn:E.
  rewrite !(set_alternative_select W exec module cmd n p _ _ cur alts h
              _ _ _ _ Hd Hc Hin E).
  split; [reflexivity|]. split; [|reflexivity].
  cbn [fst]. destruct (rc =? 0) eqn:Hrc.
  - apply Z.eqb_eq in Hrc. tauto.
  - apply Z.eqb_neq in Hrc. split; [|congruence].
    destruct (reported_is_fail_json module (set_args cmd n p) rc out err)
      as (msg & ->). discriminate.
Qed.

(** X6. In check mode the present branch issues nothing, and the change it
    reports is exactly whether the probed current path differs from the
    wanted one. *)
Theorem present_check_mode_predicts module cmd n p lk prio cur alts h :
  check_mode module = true ->
  snd (set_alternative exec module cmd n p lk prio cur alts h) = h
  /\ exists kwargs,
      fst (set_alternative exec module cmd n p lk prio cur alts h)
      = inl (SystemExit (ExitJson (differs cur p) kwargs)).
Proof.
  intros Hc. destruct (differs cur p) eqn:Hd.
  - rewrite set_alternative_check_mode by assumption.
    split; [reflexivity|eexists; reflexivity].
  - rewrite set_alternative_converged by assumption.
    split; [reflexivity|eexists; reflexivity].
Qed.

(** ** What the reported change stands for *)

Lemma set_alternative_real_cases module cmd n p lk prio cur alts h :
  differs cur p = true -> check_mode module = false ->
  (set_alternative exec module cmd n p lk prio cur alts h
   = (inl (SystemExit (ExitJson true [])),
      after h (world (snd (set_alternative exec module cmd n p lk prio
                             cur alts h)))
        (present_commands cmd n p lk prio alts))
   /\ all_succeed exec (world h) (present_commands cmd n p lk prio alts)
      = Some (world (snd (set_alternative exec module cmd n p lk prio
                            cur alts h))))
  \/ exists msg cmds rest,
      fst (set_alternative exec module cmd n p lk prio cur alts h)
      = inl (SystemExit (FailJson msg))
      /\ issued h (snd (set_alternative exec module cmd n p lk prio
                          cur alts h)) cmds
      /\ present_commands cmd n p lk prio alts = (cmds ++ rest)%list.
Proof.
  intros Hd Hc. unfold present_commands.
  destruct (Py.in_ p alts) eqn:Hin.
  - destruct (exec (world h) (set_args cmd n p)) as [[[rc out] err] w] eqn:E.
    rewrite !(set_alternative_select W exec module cmd n p lk prio cur alts h
                _ _ _ _ Hd Hc Hin E).
    cbn [all_succeed]. rewrite E. destruct (rc =? 0).
    + left. split; reflexivity.
    + right.
      destruct (reported_is_fail_json module (set_args cmd n p) rc out err)
        as (msg & ->).
      exists msg, [set_args cmd n p], []. repeat split.
  - destruct (Py.not_ lk) eqn:Hlk.
    { right.
      rewrite !(set_alternative_missing_link W exec module cmd n p lk prio
                  cur alts h Hd Hc Hin Hlk).
      eexists; exists []; eexists. split; [reflexivity|].
      split; [unfold issued; rewrite app_nil_r; reflexivity|reflexivity]. }
    destruct lk as [l|]; [|discriminate].
    destruct (exec (world h) (install_args cmd l n p prio))
      as [[[rc1 out1] err1] w1] eqn:E1.
    destruct (exec w1 (set_args cmd n p)) as [[[rc2 out2] err2] w2] eqn:E2.
    rewrite !(set_alternative_install W exec module cmd n p l prio cur alts h
                _ _ _ _ _ _ _ _ Hd Hc Hin Hlk E1 E2).
    cbn [all_succeed]. rewrite E1. destruct (rc1 =? 0).
    + rewrite E2. destruct (rc2 =? 0).
      * left. split; reflexivity.
      * right.
        destruct (reported_is_fail_json module (set_args cmd n p)
                    rc2 out2 err2) as (msg & ->).
        exists msg, [install_args cmd l n p prio; set_args cmd n p], [].
        repeat split.
    + right.
      destruct (reported_is_fail_json module (install_args cmd l n p prio)
                  rc1 out1 err1) as (msg & ->).
      exists msg, [install_args cmd l n p prio], [set_args cmd n p].
      repeat split.
Qed.

(** X7. After the probe, each branch keeps to its own commands: the present
    branch issues nothing, or the set command, or the install command with
    the link it was handed, alone or followed by the set command; the absent
    branch issues nothing or the remove command. *)
Theorem branches_keep_to_their_commands module cmd n p lk prio cur alts h :
  (exists cmds,
      issued h (snd (set_alternative exec module cmd n p lk prio cur alts h))
        cmds
      /\ (cmds = [] \/ cmds = [set_args cmd n p]
          \/ exists l,
              lk = Some l
              /\ (cmds = [install_args cmd l n p prio]
                  \/ cmds = [install_args cmd l n p prio;
                             set_args cmd n p])))
  /\ (issued h (snd (remove_alternative exec module cmd n p alts h)) []
      \/ issued h (snd (remove_alternative exec module cmd n p alts h))
           [remove_args cmd n p]).
Proof.
  assert (Hnil : forall h0 : Host W, issued h0 h0 []).
  { intros h0. unfold issued. rewrite app_nil_r. reflexivity. }
  split.
  - destruct (differs cur p) eqn:Hd.
    2:{ rewrite set_alternative_converged by assumption.
        exists []. split; [apply Hnil|auto]. }
    destruct (check_mode module) eqn:Hc.
    { rewrite set_alternative_check_mode by assumption.
      exists []. split; [apply Hnil|auto]. }
    destruct (Py.in_ p alts) eqn:Hin.
    + destruct (exec (world h) (set_args cmd n p))
        as [[[rc out] err] w] eqn:E.
      rewrite (set_alternative_select W exec module cmd n p lk prio cur alts h
                 _ _ _ _ Hd Hc Hin E).
      exists [set_args cmd n p]. split; [reflexivity|auto].
    + destruct (Py.not_ lk) eqn:Hlk.
      { rewrite set_alternative_missing_link by assumption.
        exists []. split; [apply Hnil|auto]. }
      destruct lk as [l|]; [|discriminate].
      destruct (exec (world h) (install_args cmd l n p prio))
        as [[[rc1 out1] err1] w1] eqn:E1.
      destruct (exec w1 (set_args cmd n p)) as [[[rc2 out2] err2] w2] eqn:E2.
      rewrite (set_alternative_install W exec module cmd n p l prio cur alts h
                 _ _ _ _ _ _ _ _ Hd Hc Hin Hlk E1 E2).
      destruct (rc1 =? 0).
      * exists [install_args cmd l n p prio; set_args cmd n p].
        split; [reflexivity|]. right. right. exists l. auto.
      * exists [install_args cmd l n p prio].
        split; [reflexivity|]. right. right. exists l. auto.
  - destruct (Py.in_ p alts) eqn:Hin.
    + destruct (exec (world h) (remove_args cmd n p))
        as [[[rc out] err] w] eqn:E.
      rewrite (remove_alternative_candidate W exec module cmd n p alts h
                 _ _ _ _ Hin E).
      right. reflexivity.
    + rewrite remove_alternative_absent by assumption. left. apply Hnil.
Qed.

(** X8. A real run of the present branch reports [changed=true] only after
    the whole plan (the install when the path was no candidate, then the
    set) was issued and every command of it succeeded; the probed current
    path was not the wanted one. *)
Theorem changed_means_selected module cmd n p lk prio cur alts h kwargs h' :
  check_mode module = false ->
  set_alternative exec module cmd n p lk prio cur alts h
  = (inl (SystemExit (ExitJson true kwargs)), h') ->
  cur <> Some p
  /\ issued h h' (present_commands cmd n p lk prio alts)
  /\ all_succeed exec (world h) (present_commands cmd n p lk prio alts)
     = Some (world h').
Proof.
  intros Hc H. destruct (differs cur p) eqn:Hd.
  2:{ rewrite set_alternative_converged in H by assumption. discriminate. }
  split; [apply differs_true; exact Hd|].
  destruct (set_alternative_real_cases module cmd n p lk prio cur alts h
              Hd Hc) as [[H1 H2]|(msg & cmds & rest & H1 & _)].
  - rewrite H in H1, H2. cbn [snd] in H1, H2.
    inversion H1 as [[Hk Hh]]. split; [|exact H2].
    rewrite Hh at 1. reflexivity.
  - rewrite H in H1. discriminate.
Qed.

(** X9. The absent branch reports [changed=true] only when the path was a
    candidate and the remove command, the one command issued, succeeded. *)
Theorem changed_means_removed module cmd n p alts h kwargs h' :
  remove_alternative exec module cmd n p alts h
  = (inl (SystemExit (ExitJson true kwargs)), h') ->
  In p alts
  /\ issued h h' [remove_args cmd n p]
  /\ all_succeed exec (world h) [remove_args cmd n p] = Some (world h').
Proof.
  intros H. destruct (Py.in_ p alts) eqn:Hin.
  2:{ rewrite remove_alternative_absent in H by assumption. discriminate. }
  split; [apply in__In; exact Hin|].
  destruct (exec (world h) (remove_args cmd n p)) as [[[rc out] err] w] eqn:E.
  rewrite (remove_alternative_candidate W exec module cmd n p alts h
             _ _ _ _ Hin E) in H.
  cbn [all_succeed]. rewrite E. destruct (rc =? 0).
  - inversion H. split; reflexivity.
  - destruct (reported_is_fail_json module (remove_args cmd n p) rc out err)
      as (msg & Hm).
    rewrite Hm in H. discriminate.
Qed.

(** X10. A run that reports [changed=false] has issued nothing after the
    probe: the present branch because the probed current path is the
    wanted one, the absent branch because the path is no candidate. *)
Theorem unchanged_means_untouched module cmd n p lk prio cur alts h :
  (forall kwargs h',
      set_alternative exec module cmd n p lk prio cur alts h
      = (inl (SystemExit (ExitJson false kwargs)), h') ->
      h' = h /\ cur = Some p)
  /\ (forall kwargs h',
      remove_alternative exec module cmd n p alts h
      = (inl (SystemExit (ExitJson false kwargs)), h') ->
      h' = h /\ ~ In p alts).
Proof.
  split; intros kwargs h' H.
  - destruct (differs cur p) eqn:Hd.
    + destruct (check_mode module) eqn:Hc.
      { rewrite set_alternative_check_mode in H by assumption.
        discriminate. }
      destruct (set_alternative_real_cases module cmd n p lk prio cur alts h
                  Hd Hc) as [[H1 _]|(msg & cmds & rest & H1 & _)];
        rewrite H in H1; discriminate.
    + rewrite set_alternative_converged in H by assumption.
      inversion H. split; [reflexivity|apply differs_false; exact Hd].
  - destruct (Py.in_ p alts) eqn:Hin.
    + destruct (exec (world h) (remove_args cmd n p))
        as [[[rc out] err] w] eqn:E.
      rewrite (remove_alternative_candidate W exec module cmd n p alts h
                 _ _ _ _ Hin E) in H.
      destruct (rc =? 0); [discriminate|].
      destruct (reported_is_fail_json module (remove_args cmd n p) rc out err)
        as (msg & Hm).
      rewrite Hm in H. discriminate.
    + rewrite remove_alternative_absent in H by assumption.
      inversion H. split; [reflexivity|apply in__not_In; exact Hin].
Qed.

(** X11. On the present branch check mode tells the change a real run
    would report: when the real run ends through [exit_json], the run in
    check mode, from the same probe, reports the same [changed]. *)
Theorem check_mode_agrees module cmd n p lk prio cur alts h c kwargs h' :
  check_mode module = false ->
  set_alternative exec module cmd n p lk prio cur alts h
  = (inl (SystemExit (ExitJson c kwargs)), h') ->
  exists kwargs',
    set_alternative exec (with_check_mode true module) cmd n p lk prio
      cur alts h
    = (inl (SystemExit (ExitJson c kwargs')), h).
Proof.
  intros Hc H. destruct (differs cur p) eqn:Hd.
  - rewrite (set_alternative_check_mode W exec (with_check_mode true module))
      by (assumption || reflexivity).
    destruct (set_alternative_real_cases module cmd n p lk prio cur alts h
                Hd Hc) as [[H1 _]|(msg & cmds & rest & H1 & _)];
      rewrite H in H1; [|discriminate].
    inversion H1. eexists. reflexivity.
  - rewrite set_alternative_converged in H by assumption.
    rewrite set_alternative_converged by assumption.
    inversion H. eexists. reflexivity.
Qed.

(** ** Whole runs *)

(** X12. The first alternative of a group, in a real run: when the display
    command fails (the group is not registered), a link is given, and the
    install and the set succeed, [main] has issued the display, the install
    and the set command, in that order and no other, and reports
    [changed=true]. *)
Theorem first_alternative_is_installed module h cmd l rc out err w1 w2 :
  state (params module) = present ->
  check_mode module = false ->
  which module "update-alternatives" = Some cmd ->
  link (params module) = Some l -> Py.not_ (Some l) = false ->
  exec (world h) (display_args cmd (name (params module)))
  = (rc, out, err, w1) ->
  rc <> 0 ->
  all_succeed exec w1
    [install_args cmd l (name (params module)) (path (params module))
       (priority (params module));
     set_args cmd (name (params module)) (path (params module))] = Some w2 ->
  main exec module h
  = (inl (SystemExit (ExitJson true [])),
     after h w2
       [display_args cmd (name (params module));
        install_args cmd l (name (params module)) (path (params module))
          (priority (params module));
        set_args cmd (name (params module)) (path (params module))]).
Proof.
  intros Hst Hc Hw Hl Hlk E Hrc Hall.
  assert (Hp := get_current_display_failed W exec module cmd
                  (name (params module)) (link (params module)) h
                  _ _ _ _ E Hrc).
  rewrite (main_probed W exec module h cmd _ _ _ _ Hw Hp), Hst, Hl.
  rewrite (present_real_run W exec module cmd (name (params module))
             (path (params module)) (Some l) (priority (params module))
             None [] (after h w1 [display_args cmd (name (params module))])
             w2 eq_refl Hc (or_intror Hlk) Hall).
  unfold after, present_commands. cbn [Py.in_ existsb log world].
  rewrite <- app_assoc. reflexivity.
Qed.

(** X13. Removing twice: with [state=absent], when the path is a candidate
    and the remove command succeeds the run reports [changed=true]; a
    second run whose probe no longer lists the path reports [changed=false]
    and issues nothing after its probe. *)
Theorem absent_twice module h cmd cur alts lk h1 out err w2 :
  state (params module) = absent ->
  which module "update-alternatives" = Some cmd ->
  get_current exec module cmd (name (params module)) (link (params module)) h
  = (inr (cur, alts, lk), h1) ->
  In (path (params module)) alts ->
  exec (world h1)
    (remove_args cmd (name (params module)) (path (params module)))
  = (0, out, err, w2) ->
  main exec module h
  = (inl (SystemExit (ExitJson true [])),
     after h1 w2
       [remove_args cmd (name (params module)) (path (params module))])
  /\ forall cur' alts' lk' h3,
      get_current exec module cmd (name (params module))
        (link (params module))
        (after h1 w2
           [remove_args cmd (name (params module)) (path (params module))])
      = (inr (cur', alts', lk'), h3) ->
      ~ In (path (params module)) alts' ->
      main exec module
        (after h1 w2
           [remove_args cmd (name (params module)) (path (params module))])
      = (inl (SystemExit (ExitJson false [])), h3).
Proof.
  intros Hst Hw Hp Hin E. split.
  - rewrite (main_probed W exec module h cmd _ _ _ _ Hw Hp), Hst.
    apply in__In in Hin.
    rewrite (remove_alternative_candidate W exec module cmd _ _ alts h1
               _ _ _ _ Hin E).
    reflexivity.
  - intros cur' alts' lk' h3 Hp' Hout.
    rewrite (main_probed W exec module _ cmd _ _ _ _ Hw Hp'), Hst.
    apply remove_alternative_absent. apply in__not_In. exact Hout.
Qed.

End MoreProperties.

(** ** The link line of the query report *)

Lemma split_word_tail : forall p tail,
  word p = true ->
  tail = "" \/ (exists c t, tail = String c t /\ Py.isspace c = true) ->
  Py.split (p ++ tail) = p :: Py.split tail.
Proof.
  induction p as [|c p IH]; intros tail Hp Htail; [discriminate|].
  cbn [word no_space] in Hp. apply andb_prop in Hp. destruct Hp as [Hc Hp].
  apply negb_true_iff in Hc.
  destruct p as [|d p].
  - change ("" ++ tail) with tail in *.
    destruct Htail as [->|(e & t & -> & He)].
    + cbn [append Py.split]. rewrite Hc. reflexivity.
    + cbn [append Py.split]. rewrite Hc, He. reflexivity.
  - assert (Hd : Py.isspace d = false).
    { cbn [no_space] in Hp. apply andb_prop in Hp.
      apply negb_true_iff. exact (proj1 Hp). }
    assert (IH' := IH tail Hp Htail).
    change (String c (String d p) ++ tail)
      with (String c (String d (p ++ tail))).
    change (String d p ++ tail) with (String d (p ++ tail)) in IH'.
    remember (String d (p ++ tail)) as rest eqn:Hrest.
    cbn [Py.split]. rewrite Hc.
    rewrite Hrest at 1. rewrite Hd, IH'. reflexivity.
Qed.

Lemma find_first_match {A} (f : A -> bool) x : forall pre post,
  forallb (fun a => negb (f a)) pre = true -> f x = true ->
  find f (pre ++ x :: post) = Some x.
Proof.
  induction pre as [|a pre IH]; intros post Hpre Hx.
  - cbn [app find]. rewrite Hx. reflexivity.
  - cbn [forallb] in Hpre. apply andb_prop in Hpre.
    destruct Hpre as [Ha Hpre]. apply negb_true_iff in Ha.
    cbn [app find]. rewrite Ha. apply IH; assumption.
Qed.

(** X14. The loop over the query report reads a link back from the line
    the tool writes for it: when the first line starting with [Link:] is
    [Link: ] followed by a word (no blank in it) the loop returns that
    word, whatever follows on the line after a blank, and whatever the
    lines after it; a link with a blank in it comes back cut at the
    blank. *)
Theorem link_line_round_trip (W : Type) (pre post : list string)
    (p tail : string) (lk : option string) (h : Host W) :
  forallb (fun l => negb (Py.startswith "Link:" l)) pre = true ->
  word p = true ->
  tail = "" \/ (exists c t, tail = String c t /\ Py.isspace c = true) ->
  get_current_link (pre ++ ("Link: " ++ p ++ tail) :: post) lk h
  = (inr (Some p), h).
Proof.
  intros Hpre Hp Htail. rewrite get_current_link_first.
  rewrite (find_first_match (Py.startswith "Link:")
             ("Link: " ++ p ++ tail) pre post Hpre eq_refl).
  change ("Link: " ++ p ++ tail) with ("Link:" ++ String " " (p ++ tail)).
  rewrite (split_word_tail "Link:" (String " " (p ++ tail)) eq_refl)
    by (right; exists " "%char, (p ++ tail); split; reflexivity).
  change (Py.split (String " " (p ++ tail))) with (Py.split (p ++ tail)).
  rewrite (split_word_tail p tail Hp Htail). reflexivity.
Qed.

(** * More runs on concrete hosts *)

Lemma select_only_witness :
  fst (set_alternative Tool.exec
         (Tool.module_ "vim" "/usr/bin/vim.tiny" None 50 present false)
         Tool.cmd "vim" "/usr/bin/vim.tiny" None 50
         (Some "/usr/bin/vim.basic")
         ["/usr/bin/vim.basic"; "/usr/bin/vim.tiny"]
         (Tool.host Tool.vim_world))
  = inl (SystemExit (ExitJson true [])).
Proof.
  destruct (select_only Tool.World Tool.exec
              (Tool.module_ "vim" "/usr/bin/vim.tiny" None 50 present false)
              Tool.cmd "vim" "/usr/bin/vim.tiny" None 50
              (Some "/usr/bin/vim") 10
              (Some "/usr/bin/vim.basic")
              ["/usr/bin/vim.basic"; "/usr/bin/vim.tiny"]
              (Tool.host Tool.vim_world))
    as (_ & H & _).
  - reflexivity.
  - reflexivity.
  - right. left. reflexivity.
  - apply H. reflexivity.
Defined.

Lemma present_check_mode_predicts_witness :
  snd (set_alternative Tool.exec
         (Tool.module_ "vim" "/usr/bin/vim.nox" None 50 present true)
         Tool.cmd "vim" "/usr/bin/vim.nox" None 50
         (Some "/usr/bin/vim.basic")
         ["/usr/bin/vim.basic"; "/usr/bin/vim.tiny"]
         (Tool.host Tool.vim_world))
  = Tool.host Tool.vim_world.
Proof.
  apply (present_check_mode_predicts Tool.World Tool.exec
           (Tool.module_ "vim" "/usr/bin/vim.nox" None 50 present true)).
  reflexivity.
Defined.

Lemma changed_means_selected_witness :
  all_succeed Tool.exec Tool.vim_world
    (present_commands Tool.cmd "vim" "/usr/bin/vim.nox"
       (Some "/usr/bin/vim") 50
       ["/usr/bin/vim.basic"; "/usr/bin/vim.tiny"])
  = Some (world
            (snd (set_alternative Tool.exec
                    (Tool.module_ "vim" "/usr/bin/vim.nox"
                       (Some "/usr/bin/vim") 50 present false)
                    Tool.cmd "vim" "/usr/bin/vim.nox" (Some "/usr/bin/vim")
                    50 (Some "/usr/bin/vim.basic")
                    ["/usr/bin/vim.basic"; "/usr/bin/vim.tiny"]
                    (Tool.host Tool.vim_world)))).
Proof.
  refine (proj2 (proj2
    (changed_means_selected Tool.World Tool.exec
       (Tool.module_ "vim" "/usr/bin/vim.nox" (Some "/usr/bin/vim") 50
          present false)
       Tool.cmd "vim" "/usr/bin/vim.nox" (Some "/usr/bin/vim") 50
       (Some "/usr/bin/vim.basic")
       ["/usr/bin/vim.basic"; "/usr/bin/vim.tiny"]
       (Tool.host Tool.vim_world) [] _ eq_refl _))).
  reflexivity.
Defined.

Lemma changed_means_removed_witness :
  In "/usr/bin/vim.tiny" ["/usr/bin/vim.basic"; "/usr/bin/vim.tiny"]
  /\ all_succeed Tool.exec Tool.vim_world
       [remove_args Tool.cmd "vim" "/usr/bin/vim.tiny"]
     = Some (world
               (snd (remove_alternative Tool.exec
                       (Tool.module_ "vim" "/usr/bin/vim.tiny" None 50
                          absent false)
                       Tool.cmd "vim" "/usr/bin/vim.tiny"
                       ["/usr/bin/vim.basic"; "/usr/bin/vim.tiny"]
                       (Tool.host Tool.vim_world)))).
Proof.
  destruct (changed_means_removed Tool.World Tool.exec
              (Tool.module_ "vim" "/usr/bin/vim.tiny" None 50 absent false)
              Tool.cmd "vim" "/usr/bin/vim.tiny"
              ["/usr/bin/vim.basic"; "/usr/bin/vim.tiny"]
              (Tool.host Tool.vim_world) []
              (snd (remove_alternative Tool.exec
                      (Tool.module_ "vim" "/usr/bin/vim.tiny" None 50
                         absent false)
                      Tool.cmd "vim" "/usr/bin/vim.tiny"
                      ["/usr/bin/vim.basic"; "/usr/bin/vim.tiny"]
                      (Tool.host Tool.vim_world))) eq_refl)
    as (H1 & _ & H2).
  split; [exact H1|exact H2].
Defined.

Lemma check_mode_agrees_witness :
  exists kwargs,
    set_alternative Tool.exec
      (with_check_mode true
         (Tool.module_ "vim" "/usr/bin/vim.tiny" None 50 present false))
      Tool.cmd "vim" "/usr/bin/vim.tiny" None 50
      (Some "/usr/bin/vim.basic")
      ["/usr/bin/vim.basic"; "/usr/bin/vim.tiny"]
      (Tool.host Tool.vim_world)
    = (inl (SystemExit (ExitJson true kwargs)), Tool.host Tool.vim_world).
Proof.
  refine (check_mode_agrees Tool.World Tool.exec
            (Tool.module_ "vim" "/usr/bin/vim.tiny" None 50 present false)
            Tool.cmd "vim" "/usr/bin/vim.tiny" None 50
            (Some "/usr/bin/vim.basic")
            ["/usr/bin/vim.basic"; "/usr/bin/vim.tiny"]
            (Tool.host Tool.vim_world) true [] _ eq_refl _).
  reflexivity.
Defined.

Lemma first_alternative_is_installed_witness :
  fst (main Tool.exec
         (Tool.module_ "vim" "/usr/bin/vim.nox" (Some "/usr/bin/vim") 50
            present false)
         (Tool.host Tool.empty_world))
  = inl (SystemExit (ExitJson true [])).
Proof.
  erewrite (first_alternative_is_installed Tool.World Tool.exec
              (Tool.module_ "vim" "/usr/bin/vim.nox" (Some "/usr/bin/vim") 50
                 present false)
              (Tool.host Tool.empty_world) Tool.cmd "/usr/bin/vim"
              2 "" "no alternatives for vim" Tool.empty_world).
  - reflexivity.
  - reflexivity.
  - reflexivity.
  - reflexivity.
  - reflexivity.
  - reflexivity.
  - reflexivity.
  - discriminate.
  - run.
Defined.

Lemma absent_twice_witness :
  fst (main Tool.exec
         (Tool.module_ "vim" "/usr/bin/vim.tiny" None 50 absent false)
         (Tool.host Tool.vim_world))
  = inl (SystemExit (ExitJson true []))
  /\ fst (main Tool.exec
            (Tool.module_ "vim" "/usr/bin/vim.tiny" None 50 absent false)
            (snd (main Tool.exec
                    (Tool.module_ "vim" "/usr/bin/vim.tiny" None 50 absent
                       false)
                    (Tool.host Tool.vim_world))))
     = inl (SystemExit (ExitJson false [])).
Proof.
  edestruct (absent_twice Tool.World Tool.exec
               (Tool.module_ "vim" "/usr/bin/vim.tiny" None 50 absent false)
               (Tool.host Tool.vim_world) Tool.cmd) as [H1 H2];
    [run|run|run| |run|].
  - right. left. reflexivity.
  - rewrite H1. split; [reflexivity|]. cbn [snd].
    erewrite H2; [reflexivity|run|].
    intros [E|[]]. discriminate E.
Defined.

Lemma link_line_round_trip_witness :
  get_current_link
    ["Name: vim"; "Link: /usr/bin/vim"; "Status: auto"] None
    (Tool.host Tool.vim_world)
  = (inr (Some "/usr/bin/vim"), Tool.host Tool.vim_world).
Proof.
  apply (link_line_round_trip Tool.World ["Name: vim"] ["Status: auto"]
           "/usr/bin/vim" "" None (Tool.host Tool.vim_world)).
  - reflexivity.
  - reflexivity.
  - left. reflexivity.
Defined.

Lemma unchanged_means_untouched_witness :
  snd (remove_alternative Tool.exec
         (Tool.module_ "vim" "/usr/bin/vim.nox" None 50 absent false)
         Tool.cmd "vim" "/usr/bin/vim.nox"
         ["/usr/bin/vim.basic"; "/usr/bin/vim.tiny"]
         (Tool.host Tool.vim_world))
  = Tool.host Tool.vim_world.
Proof.
  destruct (unchanged_means_untouched Tool.World Tool.exec
              (Tool.module_ "vim" "/usr/bin/vim.nox" None 50 absent false)
              Tool.cmd "vim" "/usr/bin/vim.nox" None 50 None
              ["/usr/bin/vim.basic"; "/usr/bin/vim.tiny"]
              (Tool.host Tool.vim_world)) as [_ H].
  apply (H [] _ eq_refl).
Defined.
